(** * Azure-metrics: the collection-and-aggregation pipeline of [insights.py]

    A shallow embedding of the inventory script: the Python values it
    receives from the management API, the exceptions its expressions can
    raise, the HTTP transport as an oracle with a request log, and the
    functions of the script in source order.  The theorems at the end
    settle the claims of the specification against these definitions.

    Conventions of the model
    - A JSON number is a Python [int], unbounded, or a [float], an
      IEEE 754 binary64 value.  Integers are added exactly.  What an
      operation with a [float] rounds to, and when it raises
      [OverflowError], is the interpreter's: the script's functions
      take that arithmetic from the environment of the run.
    - The built-in [sum] adds from the left, starting from the integer
      [0]: [((0 + x1) + x2) + ...].
    - Python strings are [string]s of bytes; [str.lower] acts on the
      ASCII letters.
    - A dictionary is the list of its items, looked up by key; the keys
      of a parsed object are distinct.
    - [print] calls are not modelled: they never decide a result. *)

From Stdlib Require Import ZArith Ascii String List Lia.
From Stdlib Require Import Floats.PrimFloat Floats.SpecFloat Floats.FloatOps.
From stdpp Require Import base option list strings gmap.

Set Warnings "-register-all,-inexact-float".

Local Open Scope string_scope.
Local Open Scope list_scope.
Local Open Scope Z_scope.

(* ===================================================================== *)
(** ** Python values *)
(* ===================================================================== *)

(** A Python number: an [int] or a [float]. *)
Inductive number : Type :=
| NInt (z : Z)
| NFloat (f : float).

Coercion NInt : Z >-> number.

(** What [response.json()] produces. *)
Inductive json : Type :=
| JNull
| JBool (b : bool)
| JNum (n : number)
| JStr (s : string)
| JArr (items : list json)
| JObj (fields : list (string * json)).

(** The exceptions the script's expressions can raise. *)
Inductive exn : Type :=
| AttributeError
| TypeError
| IndexError
| KeyError
| JSONDecodeError
| HTTPError
| ConnectionError
| CredentialUnavailableError
| OverflowError
| ZeroDivisionError.

Inductive result (A : Type) : Type :=
| Ok (a : A)
| Raise (e : exn).
Arguments Ok {A} a.
Arguments Raise {A} e.

Definition rbind {A B} (r : result A) (k : A -> result B) : result B :=
  match r with
  | Ok a => k a
  | Raise e => Raise e
  end.

Declare Scope py_scope.
Delimit Scope py_scope with py.
Notation "x <~ r ;; k" := (rbind r (fun x => k))
  (at level 100, r at next level, right associativity) : py_scope.
Local Open Scope py_scope.

(* --------------------------------------------------------------------- *)
(** *** Strings *)

Definition lower_ascii (c : ascii) : ascii :=
  let n := nat_of_ascii c in
  if ((65 <=? n) && (n <=? 90))%nat then ascii_of_nat (n + 32) else c.

Definition upper_ascii (c : ascii) : ascii :=
  let n := nat_of_ascii c in
  if ((97 <=? n) && (n <=? 122))%nat then ascii_of_nat (n - 32) else c.

(** [s.lower()] *)
Fixpoint lower (s : string) : string :=
  match s with
  | EmptyString => EmptyString
  | String c r => String (lower_ascii c) (lower r)
  end.

(** [s.capitalize()] *)
Definition capitalize (s : string) : string :=
  match s with
  | EmptyString => EmptyString
  | String c r => String (upper_ascii c) (lower r)
  end.

(** [s.split(sep)] for a one-character separator. *)
Fixpoint split_on (sep : ascii) (s : string) : list string :=
  match s with
  | EmptyString => [EmptyString]
  | String c r =>
      if Ascii.eqb c sep then EmptyString :: split_on sep r
      else match split_on sep r with
           | h :: t => String c h :: t
           | [] => [String c EmptyString]
           end
  end.

(** [needle in hay] on strings. *)
Fixpoint contains (needle hay : string) : bool :=
  String.prefix needle hay ||
  match hay with
  | EmptyString => false
  | String _ r => contains needle r
  end.

(** The characters of a string, as iteration over a [str] yields them. *)
Fixpoint chars (s : string) : list string :=
  match s with
  | EmptyString => []
  | String c r => String c EmptyString :: chars r
  end.

(* --------------------------------------------------------------------- *)
(** *** Dynamic operations on values *)

Fixpoint assoc_find (k : string) (fs : list (string * json)) : option json :=
  match fs with
  | [] => None
  | (k', v) :: rest => if String.eqb k k' then Some v else assoc_find k rest
  end.

(** [o.get(k, d)]: only a dict has [get]. *)
Definition py_get (o : json) (k : string) (d : json) : result json :=
  match o with
  | JObj fs => Ok (default d (assoc_find k fs))
  | _ => Raise AttributeError
  end.

(** [bool(v)] *)
Definition truthy (v : json) : bool :=
  match v with
  | JNull => false
  | JBool b => b
  | JNum (NInt z) => negb (z =? 0)
  | JNum (NFloat f) => negb (PrimFloat.eqb f 0)
  | JStr s => negb (String.eqb s "")
  | JArr l => match l with [] => false | _ => true end
  | JObj l => match l with [] => false | _ => true end
  end.

Definition is_none (v : json) : bool :=
  match v with JNull => true | _ => false end.

(** [v == s] for a string literal [s]. *)
Definition eq_str (v : json) (s : string) : bool :=
  match v with JStr t => String.eqb t s | _ => false end.

(** [v.lower()] *)
Definition py_lower (v : json) : result string :=
  match v with
  | JStr s => Ok (lower s)
  | _ => Raise AttributeError
  end.

(** [for x in v] *)
Definition py_iter (v : json) : result (list json) :=
  match v with
  | JArr l => Ok l
  | JStr s => Ok (map JStr (chars s))
  | JObj fs => Ok (map (fun kv => JStr (fst kv)) fs)
  | _ => Raise TypeError
  end.

(** [len(v)] *)
Definition py_len (v : json) : result Z :=
  match v with
  | JArr l => Ok (Z.of_nat (length l))
  | JStr s => Ok (Z.of_nat (String.length s))
  | JObj fs => Ok (Z.of_nat (length fs))
  | _ => Raise TypeError
  end.

(** [v[0]] *)
Definition py_first (v : json) : result json :=
  match v with
  | JArr (x :: _) => Ok x
  | JArr [] => Raise IndexError
  | JStr (String c _) => Ok (JStr (String c EmptyString))
  | JStr EmptyString => Raise IndexError
  | JObj _ => Raise KeyError
  | _ => Raise TypeError
  end.

(** ["k" in v] *)
Definition py_in (k : string) (v : json) : result bool :=
  match v with
  | JObj fs => Ok (bool_decide (is_Some (assoc_find k fs)))
  | JArr l => Ok (existsb (fun x => eq_str x k) l)
  | JStr s => Ok (contains k s)
  | _ => Raise TypeError
  end.

(** [v["k"]] *)
Definition py_item (v : json) (k : string) : result json :=
  match v with
  | JObj fs => match assoc_find k fs with
               | Some x => Ok x
               | None => Raise KeyError
               end
  | _ => Raise TypeError
  end.

(** [v.split('/')[4]] *)
Definition split_segment4 (v : json) : result string :=
  match v with
  | JStr s => match split_on "/" s !! 4%nat with
              | Some g => Ok g
              | None => Raise IndexError
              end
  | _ => Raise AttributeError
  end.

(** A value as an operand of [+] with a number: [bool] is an [int]. *)
Definition as_number (v : json) : result number :=
  match v with
  | JNum n => Ok n
  | JBool true => Ok (NInt 1)
  | JBool false => Ok (NInt 0)
  | _ => Raise TypeError
  end.

(** The interpreter's arithmetic where it is not exact: both operations
    can round, and both can raise [OverflowError] when an integer is too
    large for a [float]. *)
Record Arithmetic : Type := {
  (** [a + b] when [a] or [b] is a [float] *)
  float_add : number -> number -> result number;
  (** [a / b] *)
  true_divide : number -> number -> result number
}.

(** [a + b] *)
Definition py_add (ar : Arithmetic) (a b : number) : result number :=
  match a, b with
  | NInt x, NInt y => Ok (NInt (x + y))
  | _, _ => float_add ar a b
  end.

(** [sum(...)] over values already selected: a left fold from [0]. *)
Fixpoint sum_from (ar : Arithmetic) (acc : number) (vs : list json)
  : result number :=
  match vs with
  | [] => Ok acc
  | v :: rest =>
      n <~ as_number v ;;
      acc' <~ py_add ar acc n ;;
      sum_from ar acc' rest
  end.

Definition py_sum (ar : Arithmetic) (vs : list json) : result number :=
  sum_from ar (NInt 0) vs.

(* ===================================================================== *)
(** ** The transport and the token provider *)
(* ===================================================================== *)

(** What one [requests.get] can come back with: a response (status code
    and body, [None] when the body is not JSON) or a transport error. *)
Inductive http_reply : Type :=
| Reply (status : Z) (body : option json)
| TransportError.

Record response : Type := { status_code : Z; body : option json }.

(** The environment of one run.  Both collaborators may answer
    differently as the run proceeds, so they see the requests made so
    far; the arithmetic is that of the interpreter the script runs on. *)
Record World : Type := {
  credential : list string -> option string;
  respond : list string -> string -> string -> http_reply;
  arithmetic : Arithmetic
}.

(** Computations that issue requests: the state is the log of the URLs
    requested so far; an exception keeps the log. *)
Definition M (A : Type) : Type := list string -> result A * list string.

Definition ret {A} (a : A) : M A := fun log => (Ok a, log).

Definition bind {A B} (m : M A) (k : A -> M B) : M B :=
  fun log =>
    match m log with
    | (Ok a, log') => k a log'
    | (Raise e, log') => (Raise e, log')
    end.

Definition lift {A} (r : result A) : M A := fun log => (r, log).

Definition raise {A} (e : exn) : M A := fun log => (Raise e, log).

(** [try: m  except Exception: h] *)
Definition try_except {A} (m : M A) (h : exn -> M A) : M A :=
  fun log =>
    match m log with
    | (Ok a, log') => (Ok a, log')
    | (Raise e, log') => h e log'
    end.

Notation "x <- m ;; k" := (bind m (fun x => k))
  (at level 100, m at next level, right associativity) : py_scope.
(** [response.ok]: no 4xx or 5xx status. *)
Definition response_ok (r : response) : bool :=
  negb ((400 <=? status_code r) && (status_code r <? 600)).

(** [response.raise_for_status()] *)
Definition raise_for_status (r : response) : result unit :=
  if response_ok r then Ok tt else Raise HTTPError.

(** [response.json()] *)
Definition response_json (r : response) : result json :=
  match body r with
  | Some j => Ok j
  | None => Raise JSONDecodeError
  end.

(** [for x in xs: acc = step(acc, x)], stopping at the first exception. *)
Fixpoint for_each {S A} (step : S -> A -> result S) (acc : S) (xs : list A)
  : result S :=
  match xs with
  | [] => Ok acc
  | x :: rest => acc' <~ step acc x ;; for_each step acc' rest
  end.

(* ===================================================================== *)
(** ** Configuration *)
(* ===================================================================== *)

Definition subscription_id : string := "YOUR_SUBSCRIPTION".
Definition resource_url : string := "https://management.azure.com/".
Definition api_version_vm : string := "2022-03-01".
Definition api_version_arc : string := "2022-03-10".
Definition api_version_metrics : string := "2018-01-01".
Definition api_version_network : string := "2023-05-01".

(* ===================================================================== *)
(** ** Metric reduction *)
(* ===================================================================== *)

(** [[point.get(f, 0) for point in datapoints if point.get(f) is not None]] *)
Fixpoint non_null_values (f : string) (datapoints : list json)
  : result (list json) :=
  match datapoints with
  | [] => Ok []
  | point :: rest =>
      v <~ py_get point f JNull ;;
      if is_none v then non_null_values f rest
      else (v' <~ py_get point f (JNum (NInt 0)) ;;
            vs <~ non_null_values f rest ;;
            Ok (v' :: vs))
  end.

(** [sum(point.get(f, 0) for point in datapoints if point.get(f) is not None)]:
    the generator is consumed one point at a time, so a point is added
    before the next one is looked at. *)
Fixpoint sum_non_null (ar : Arithmetic) (f : string) (acc : number)
    (datapoints : list json) : result number :=
  match datapoints with
  | [] => Ok acc
  | point :: rest =>
      v <~ py_get point f JNull ;;
      if is_none v then sum_non_null ar f acc rest
      else (v' <~ py_get point f (JNum (NInt 0)) ;;
            n <~ as_number v' ;;
            acc' <~ py_add ar acc n ;;
            sum_non_null ar f acc' rest)
  end.

(** [sum(values) / len(values) if values else 0] *)
Definition average_of (ar : Arithmetic) (values : list json) : result number :=
  match values with
  | [] => Ok (NInt 0)
  | _ => s <~ py_sum ar values ;;
         true_divide ar s (NInt (Z.of_nat (length values)))
  end.

(** [metric.get("name", {}).get("value", "").lower()] *)
Definition metric_name (metric : json) : result string :=
  name <~ py_get metric "name" (JObj []) ;;
  value <~ py_get name "value" (JStr "") ;;
  py_lower value.

(** The guard [timeseries and "data" in timeseries[0]] and, under it,
    [timeseries[0]["data"]]. *)
Definition first_series_data (timeseries : json) : result (option json) :=
  if truthy timeseries then
    first <~ py_first timeseries ;;
    present <~ py_in "data" first ;;
    if present : bool then (d <~ py_item first "data" ;; Ok (Some d))
    else Ok None
  else Ok None.

(** Body of the loop over the first response (UsedCapacity). *)
Definition capacity_step (ar : Arithmetic) (metrics : gmap string number)
    (metric : json) : result (gmap string number) :=
  mname <~ metric_name metric ;;
  timeseries <~ py_get metric "timeseries" (JArr []) ;;
  series <~ first_series_data timeseries ;;
  match series with
  | Some datapoints =>
      if String.eqb mname "usedcapacity" then
        points <~ py_iter datapoints ;;
        values <~ non_null_values "average" points ;;
        avg <~ average_of ar values ;;
        Ok (<["UsedCapacity" := avg]> metrics)
      else Ok metrics
  | None => Ok metrics
  end.

(** Body of the loop over the second response (the other metrics). *)
Definition other_step (ar : Arithmetic) (metrics : gmap string number)
    (metric : json) : result (gmap string number) :=
  mname <~ metric_name metric ;;
  timeseries <~ py_get metric "timeseries" (JArr []) ;;
  series <~ first_series_data timeseries ;;
  match series with
  | Some datapoints =>
      if String.eqb mname "transactions" then
        points <~ py_iter datapoints ;;
        total <~ sum_non_null ar "total" (NInt 0) points ;;
        Ok (<["Transactions" := total]> metrics)
      else if String.eqb mname "ingress" || String.eqb mname "egress" then
        points <~ py_iter datapoints ;;
        total <~ sum_non_null ar "total" (NInt 0) points ;;
        Ok (<[capitalize mname := total]> metrics)
      else if String.eqb mname "successe2elatency" then
        points <~ py_iter datapoints ;;
        values <~ non_null_values "average" points ;;
        avg <~ average_of ar values ;;
        Ok (<["SuccessE2ELatency" := avg]> metrics)
      else if String.eqb mname "successserverlatency" then
        points <~ py_iter datapoints ;;
        values <~ non_null_values "average" points ;;
        avg <~ average_of ar values ;;
        Ok (<["SuccessServerLatency" := avg]> metrics)
      else if String.eqb mname "availability" then
        points <~ py_iter datapoints ;;
        values <~ non_null_values "average" points ;;
        avg <~ average_of ar values ;;
        Ok (<["Availability" := avg]> metrics)
      else Ok metrics
  | None => Ok metrics
  end.

(** [data = response.json(); for metric in data.get("value", []): ...] *)
Definition collect_metrics
    (step : gmap string number -> json -> result (gmap string number))
    (r : response) (metrics : gmap string number)
  : result (gmap string number) :=
  data <~ response_json r ;;
  value <~ py_get data "value" (JArr []) ;;
  entries <~ py_iter value ;;
  for_each step metrics entries.

Definition metrics_path : string :=
  "/providers/microsoft.insights/metrics?api-version=" +:+ api_version_metrics
  +:+ "&timespan=P1D&interval=PT1H"
  +:+ "&metricnamespace=Microsoft.Storage/storageAccounts".

Definition capacity_query : string :=
  "&metricnames=UsedCapacity&aggregation=Average".

Definition metrics_query : string :=
  "&metricnames=Transactions,Ingress,Egress,SuccessE2ELatency,SuccessServerLatency,Availability"
  +:+ "&aggregation=Total,Average&$filter=GeoType eq 'Primary'".

(* ===================================================================== *)
(** ** Records of the aggregates *)
(* ===================================================================== *)

Inductive vm_kind : Type := Compute | Arc.

Definition vm_type_name (k : vm_kind) : string :=
  match k with Compute => "Compute" | Arc => "Arc" end.

(** One entry of a resource group's ['machines'] list. *)
Record machine : Type := {
  name : json;
  type : vm_kind;
  power_state : string;
  monitored : bool;
  insights_status : string
}.

(** [vm_metrics] *)
Record vm_summary : Type := {
  total_machines : Z;
  total_monitored : Z;
  resource_groups : gmap string (list machine)
}.

(** One entry of a network kind's ['items'] list. *)
Record resource_info : Type := {
  ri_name : json;
  ri_resource_group : string;
  provisioning_state : json;
  health_state : json
}.

(** [{'count': ..., 'items': [...]}] *)
Record net_entry : Type := {
  count : Z;
  items : list resource_info
}.

(** One entry of [metrics_results]. *)
Record storage_result : Type := {
  storage_account : json;
  resource_group : string;
  metrics : option (gmap string number)
}.

Record run_summary : Type := {
  storage_metrics : list storage_result;
  vm_metrics : vm_summary;
  network_metrics : gmap string net_entry
}.

Definition set_count (n : Z) (e : net_entry) : net_entry :=
  {| count := n; items := items e |}.

Definition add_item (i : resource_info) (e : net_entry) : net_entry :=
  {| count := count e; items := items e ++ [i] |}.

Definition empty_entry : net_entry := {| count := 0; items := [] |}.

(** The [resources] mapping of [get_network_resources], in source order. *)
Definition resources : list (string * string) :=
  [ ("virtual_networks", "/providers/Microsoft.Network/virtualNetworks");
    ("network_interfaces", "/providers/Microsoft.Network/networkInterfaces");
    ("network_security_groups", "/providers/Microsoft.Network/networkSecurityGroups");
    ("public_ips", "/providers/Microsoft.Network/publicIPAddresses");
    ("route_tables", "/providers/Microsoft.Network/routeTables");
    ("private_endpoints", "/providers/Microsoft.Network/privateEndpoints");
    ("expressroute_circuits", "/providers/Microsoft.Network/expressRouteCircuits");
    ("virtual_network_gateways", "/providers/Microsoft.Network/virtualNetworkGateways");
    ("er_vpn_connections", "/providers/Microsoft.Network/connections");
    ("express_route_gateways", "/providers/Microsoft.Network/expressRouteGateways");
    ("network_virtual_appliances", "/providers/Microsoft.Network/networkVirtualAppliances") ].

(** The initial [network_metrics]. *)
Definition initial_network_metrics : gmap string net_entry :=
  list_to_map
    [ ("er_vpn_connections", empty_entry);
      ("expressroute_circuits", empty_entry);
      ("express_route_gateways", empty_entry);
      ("network_interfaces", empty_entry);
      ("network_security_groups", empty_entry);
      ("network_virtual_appliances", empty_entry);
      ("private_endpoints", empty_entry);
      ("public_ips", empty_entry);
      ("route_tables", empty_entry);
      ("virtual_network_gateways", empty_entry);
      ("virtual_networks", empty_entry) ].

(** [for ext in extensions]: [true] when an Azure Monitor agent extension
    has been provisioned. *)
Fixpoint scan_extensions (extensions : list json) : result bool :=
  match extensions with
  | [] => Ok false
  | ext :: rest =>
      n <~ py_get ext "name" (JStr "") ;;
      ext_name <~ py_lower n ;;
      if contains "azuremonitor" ext_name && contains "agent" ext_name then
        props <~ py_get ext "properties" (JObj []) ;;
        st <~ py_get props "provisioningState" JNull ;;
        if eq_str st "Succeeded" then Ok true else scan_extensions rest
      else scan_extensions rest
  end.

(** [for status in data.get("statuses", [])]: the state reported by the
    first code that mentions a power state, if there is one. *)
Fixpoint scan_statuses (statuses : list json) : result (option string) :=
  match statuses with
  | [] => Ok None
  | status :: rest =>
      c <~ py_get status "code" (JStr "") ;;
      code <~ py_lower c ;;
      if contains "powerstate" code then
        Ok (Some (if contains "running" code then "running" else "stopped"))
      else scan_statuses rest
  end.

(** [vm.get("id", "").split('/')[4].lower() if resource_id else "unknown"] *)
Definition vm_group_key (resource_id : json) : result string :=
  if truthy resource_id then (g <~ split_segment4 resource_id ;; Ok (lower g))
  else Ok "unknown".

(** [sa.get("id", "").split("/")[4] if "id" in sa else "N/A"] *)
Definition storage_group (sa : json) : result string :=
  present <~ py_in "id" sa ;;
  if present : bool then (i <~ py_get sa "id" (JStr "") ;; split_segment4 i)
  else Ok "N/A".

(** [item.get('id', '').split('/')[4]] *)
Definition network_group (item : json) : result string :=
  i <~ py_get item "id" (JStr "") ;; split_segment4 i.

(* ===================================================================== *)
(** ** The pipeline *)
(* ===================================================================== *)

Section Pipeline.

(** The environment of the run. *)
Variable w : World.

(** [str(v)] of a value that is not a string, as an f-string renders it. *)
Variable fmt : json -> string.

Definition py_format (v : json) : string :=
  match v with
  | JStr s => s
  | _ => fmt v
  end.

(** [get_token()] *)
Definition get_token : M string :=
  fun log =>
    match credential w log with
    | Some t => (Ok t, log)
    | None => (Raise CredentialUnavailableError, log)
    end.

(** [requests.get(url, headers={"Authorization": f"Bearer {token}"})] *)
Definition requests_get (url token : string) : M response :=
  fun log =>
    match respond w log url ("Bearer " +:+ token) with
    | Reply st b => (Ok {| status_code := st; body := b |}, log ++ [url])
    | TransportError => (Raise ConnectionError, log ++ [url])
    end.

(** The three enumerators share their body up to the URL. *)
Definition list_resources (url token : string) : M json :=
  response <- requests_get url token ;;
  _ <- lift (raise_for_status response) ;;
  data <- lift (response_json response) ;;
  lift (py_get data "value" (JArr [])).

Definition storage_accounts_url (subscription : string) : string :=
  resource_url +:+ "subscriptions/" +:+ subscription
  +:+ "/providers/Microsoft.Storage/storageAccounts?api-version=2021-09-01".

Definition get_storage_accounts (subscription : string) : M json :=
  token <- get_token ;;
  list_resources (storage_accounts_url subscription) token.

Definition url_capacity (resource_id : json) : string :=
  resource_url +:+ py_format resource_id +:+ metrics_path +:+ capacity_query.

Definition url_metrics (resource_id : json) : string :=
  resource_url +:+ py_format resource_id +:+ metrics_path +:+ metrics_query.

(** [get_storage_account_metrics(storage_account, token, timespan)];
    [timespan] is never read. *)
Definition get_storage_account_metrics (sa : json) (token : string)
  : M (option (gmap string number)) :=
  resource_id <- lift (py_get sa "id" JNull) ;;
  if negb (truthy resource_id) then ret None
  else
    response_capacity <- requests_get (url_capacity resource_id) token ;;
    metrics1 <- lift (if response_ok response_capacity
                      then collect_metrics (capacity_step (arithmetic w))
                             response_capacity ∅
                      else Ok ∅) ;;
    response_metrics <- requests_get (url_metrics resource_id) token ;;
    metrics2 <- lift (if response_ok response_metrics
                      then collect_metrics (other_step (arithmetic w))
                             response_metrics metrics1
                      else Ok metrics1) ;;
    ret (Some metrics2).

Definition vms_url (subscription : string) : string :=
  resource_url +:+ "subscriptions/" +:+ subscription
  +:+ "/providers/Microsoft.Compute/virtualMachines?api-version="
  +:+ api_version_vm.

Definition arc_machines_url (subscription : string) : string :=
  resource_url +:+ "subscriptions/" +:+ subscription
  +:+ "/providers/Microsoft.HybridCompute/machines?api-version="
  +:+ api_version_arc.

Definition get_vms (subscription token : string) : M json :=
  list_resources (vms_url subscription) token.

Definition get_arc_machines (subscription token : string) : M json :=
  list_resources (arc_machines_url subscription) token.

Definition api_version_of (vm_type : vm_kind) : string :=
  match vm_type with Compute => api_version_vm | Arc => api_version_arc end.

Definition instance_view_url (resource_id : json) (vm_type : vm_kind) : string :=
  resource_url +:+ py_format resource_id +:+ "/instanceView?api-version="
  +:+ api_version_of vm_type.

(** [get_vm_power_state(resource_id, token, vm_type)] *)
Definition get_vm_power_state (resource_id : json) (token : string)
    (vm_type : vm_kind) : M string :=
  try_except
    (response <- requests_get (instance_view_url resource_id vm_type) token ;;
     if status_code response =? 200 then
       data <- lift (response_json response) ;;
       match vm_type with
       | Compute =>
           found <- lift (v <~ py_get data "statuses" (JArr []) ;;
                          statuses <~ py_iter v ;;
                          scan_statuses statuses) ;;
           match found with
           | Some state => ret state
           | None => ret "unknown"
           end
       | Arc =>
           status <- lift (st <~ py_get data "status" (JObj []) ;;
                           v <~ py_get st "status" (JStr "") ;;
                           py_lower v) ;;
           ret (if String.eqb status "connected" then "running" else "stopped")
       end
     else ret "unknown")
    (fun _ => ret "unknown").

Definition extensions_url (resource_id : json) (vm_type : vm_kind) : string :=
  resource_url +:+ py_format resource_id +:+ "/extensions?api-version="
  +:+ api_version_of vm_type.

Definition dcr_url (resource_id : json) : string :=
  resource_url +:+ py_format resource_id
  +:+ "/providers/Microsoft.Insights/dataCollectionRuleAssociations?api-version=2021-09-01-preview".

(** [get_vm_insights_status(resource_id, token, vm_type)] *)
Definition get_vm_insights_status (resource_id : json) (token : string)
    (vm_type : vm_kind) : M string :=
  try_except
    (response <- requests_get (extensions_url resource_id vm_type) token ;;
     agent <- lift (if status_code response =? 200 then
                      data <~ response_json response ;;
                      v <~ py_get data "value" (JArr []) ;;
                      extensions <~ py_iter v ;;
                      scan_extensions extensions
                    else Ok false) ;;
     if agent : bool then ret "Enabled"
     else
       response <- requests_get (dcr_url resource_id) token ;;
       rules <- lift (if status_code response =? 200 then
                        data <~ response_json response ;;
                        v <~ py_get data "value" (JArr []) ;;
                        Ok (truthy v)
                      else Ok false) ;;
       if rules : bool then ret "Enabled" else ret "Not enabled")
    (fun _ => ret "Unknown").

(** [process_vm(vm, vm_type, token, vm_metrics)]: the dictionary it
    mutates is passed in and returned. *)
Definition process_vm (vm : json) (vm_type : vm_kind) (token : string)
    (vm_metrics : vm_summary) : M vm_summary :=
  vm_name <- lift (py_get vm "name" (JStr "Unnamed")) ;;
  resource_id <- lift (py_get vm "id" (JStr "")) ;;
  rg_name <- lift (vm_group_key resource_id) ;;
  let groups :=
    match resource_groups vm_metrics !! rg_name with
    | None => <[rg_name := []]> (resource_groups vm_metrics)
    | Some _ => resource_groups vm_metrics
    end in
  power <- get_vm_power_state resource_id token vm_type ;;
  status <- get_vm_insights_status resource_id token vm_type ;;
  let record := {| name := vm_name;
                   type := vm_type;
                   power_state := power;
                   monitored := String.eqb status "Enabled";
                   insights_status := status |} in
  ret {| total_machines := total_machines vm_metrics + 1;
         total_monitored := if String.eqb status "Enabled"
                            then total_monitored vm_metrics + 1
                            else total_monitored vm_metrics;
         resource_groups := alter (fun ms => ms ++ [record]) rg_name groups |}.

(** [for vm in vms: process_vm(vm, vm_type, token, vm_metrics)] *)
Fixpoint process_vms (vms : list json) (vm_type : vm_kind) (token : string)
    (vm_metrics : vm_summary) : M vm_summary :=
  match vms with
  | [] => ret vm_metrics
  | vm :: rest =>
      vm_metrics' <- process_vm vm vm_type token vm_metrics ;;
      process_vms rest vm_type token vm_metrics'
  end.

Definition initial_vm_metrics : vm_summary :=
  {| total_machines := 0; total_monitored := 0; resource_groups := ∅ |}.

(** [get_vm_metrics(token)] *)
Definition get_vm_metrics (token : string) : M vm_summary :=
  compute_vms <- get_vms subscription_id token ;;
  vms <- lift (py_iter compute_vms) ;;
  vm_metrics <- process_vms vms Compute token initial_vm_metrics ;;
  arc_machines <- get_arc_machines subscription_id token ;;
  machines <- lift (py_iter arc_machines) ;;
  process_vms machines Arc token vm_metrics.

Definition health_url (resource_id : json) : string :=
  resource_url +:+ py_format resource_id
  +:+ "/providers/Microsoft.ResourceHealth/availabilityStatuses/current?api-version=2022-10-01".

(** [get_resource_health(resource_id, token)] *)
Definition get_resource_health (resource_id : json) (token : string) : M json :=
  if negb (truthy resource_id) then ret (JStr "Unknown")
  else
    try_except
      (response <- requests_get (health_url resource_id) token ;;
       if response_ok response then
         data <- lift (response_json response) ;;
         lift (props <~ py_get data "properties" (JObj []) ;;
               py_get props "availabilityState" (JStr "Unknown"))
       else ret (JStr "Unknown"))
      (fun _ => ret (JStr "Unknown")).

(** The dictionary display [resource_info = {...}], its entries evaluated
    in order. *)
Definition resource_info_of (item : json) (token : string) : M resource_info :=
  n <- lift (py_get item "name" JNull) ;;
  rg <- lift (network_group item) ;;
  state <- lift (props <~ py_get item "properties" (JObj []) ;;
                 py_get props "provisioningState" (JStr "Unknown")) ;;
  i <- lift (py_get item "id" JNull) ;;
  health <- get_resource_health i token ;;
  ret {| ri_name := n;
         ri_resource_group := rg;
         provisioning_state := state;
         health_state := health |}.

(** [for item in items: ...append(resource_info)].  The dictionary is
    mutated in place, so an exception raised by one item leaves in it
    what the items before had appended; the enclosing [except] then
    ends the loop. *)
Fixpoint append_items (resource_type : string) (token : string)
    (entries : list json) (nm : gmap string net_entry)
  : M (gmap string net_entry) :=
  match entries with
  | [] => ret nm
  | item :: rest =>
      r <- try_except (i <- resource_info_of item token ;; ret (Some i))
                      (fun _ => ret None) ;;
      match r with
      | Some i => append_items resource_type token rest
                    (alter (add_item i) resource_type nm)
      | None => ret nm
      end
  end.

Definition network_url (subscription resource_path : string) : string :=
  resource_url +:+ "subscriptions/" +:+ subscription +:+ resource_path
  +:+ "?api-version=" +:+ api_version_network.

(** One turn of the loop over [resources.items()], with its [try]. *)
Definition collect_kind (subscription token : string)
    (nm : gmap string net_entry) (kind : string * string)
  : M (gmap string net_entry) :=
  let resource_type := kind.1 in
  let url := network_url subscription kind.2 in
  try_except
    (response <- requests_get url token ;;
     if response_ok response then
       data <- lift (response_json response) ;;
       value <- lift (py_get data "value" (JArr [])) ;;
       n <- lift (py_len value) ;;
       let nm1 := alter (set_count n) resource_type nm in
       try_except
         (entries <- lift (py_iter value) ;;
          append_items resource_type token entries nm1)
         (fun _ => ret nm1)
     else ret nm)
    (fun _ => ret nm).

Fixpoint collect_kinds (subscription token : string)
    (kinds : list (string * string)) (nm : gmap string net_entry)
  : M (gmap string net_entry) :=
  match kinds with
  | [] => ret nm
  | kind :: rest =>
      nm' <- collect_kind subscription token nm kind ;;
      collect_kinds subscription token rest nm'
  end.

(** [get_network_resources(subscription_id, token)] *)
Definition get_network_resources (subscription token : string)
  : M (gmap string net_entry) :=
  collect_kinds subscription token resources initial_network_metrics.

(** The loop of [main] over the storage accounts. *)
Fixpoint collect_storage (token : string) (accounts : list json)
    (metrics_results : list storage_result) : M (list storage_result) :=
  match accounts with
  | [] => ret metrics_results
  | sa :: rest =>
      sa_name <- lift (py_get sa "name" (JStr "N/A")) ;;
      sa_metrics <- get_storage_account_metrics sa token ;;
      rg <- lift (storage_group sa) ;;
      collect_storage token rest
        (metrics_results ++ [ {| storage_account := sa_name;
                                  resource_group := rg;
                                  metrics := sa_metrics |} ])
  end.

(** [main()], up to the hand-over to the reporter. *)
Definition main : M run_summary :=
  token <- get_token ;;
  storage_accounts <- get_storage_accounts subscription_id ;;
  _ <- lift (py_len storage_accounts) ;;
  accounts <- lift (py_iter storage_accounts) ;;
  metrics_results <- collect_storage token accounts [] ;;
  vm <- get_vm_metrics token ;;
  net <- get_network_resources subscription_id token ;;
  ret {| storage_metrics := metrics_results;
         vm_metrics := vm;
         network_metrics := net |}.

(** The exit status of the process: an exception that reaches the top
    level ends it with status 1.  The reporter that runs after [main]'s
    collection is an external collaborator and is taken not to fail. *)
Definition exit_code (log : list string) : Z :=
  match (main log).1 with
  | Ok _ => 0
  | Raise _ => 1
  end.

End Pipeline.

(* ===================================================================== *)
(** ** What the reporter reads *)
(* ===================================================================== *)

(** [metrics.get(column, 'N/A')] *)
Definition csv_cell (metrics : gmap string number) (column : string) : json :=
  match metrics !! column with
  | Some n => JNum n
  | None => JStr "N/A"
  end.

Definition metric_columns : list string :=
  [ "Transactions"; "Ingress"; "Egress"; "UsedCapacity";
    "SuccessE2ELatency"; "SuccessServerLatency"; "Availability" ].

(** One data row of the storage file of [export_to_csv]:
    [metrics = result.get('metrics', {}) or {}] and the nine cells.
    The [or] replaces [None], and an empty mapping, by an empty mapping. *)
Definition csv_storage_row (r : storage_result) : list json :=
  let m := default ∅ (metrics r) in
  storage_account r :: JStr (resource_group r)
    :: map (csv_cell m) metric_columns.

(** [bytes_val < 1024.0]: an integer is compared by its exact value. *)
Definition below_1024 (bytes_val : number) : bool :=
  match bytes_val with
  | NInt z => z <? 1024
  | NFloat f => PrimFloat.ltb f 1024
  end.

Section Display.

(** The arithmetic of the interpreter. *)
Variable ar : Arithmetic.

(** [f"{val:,.{decimal_places}f}"] and [f"{bytes_val:.2f} {unit}"]: the
    conversion to [float] that the format asks for fails on an integer
    that is too large. *)
Variable render_number : number -> nat -> result string.
Variable render_bytes : number -> string -> result string.

(** [format_number(val, decimal_places)] *)
Definition format_number (val : option number) (decimal_places : nat)
  : result string :=
  match val with
  | Some n => render_number n decimal_places
  | None => Ok "N/A"
  end.

(** [for unit in units: if bytes_val < 1024.0: return ...; bytes_val /= 1024.0] *)
Fixpoint format_bytes_loop (units : list string) (bytes_val : number)
  : result string :=
  match units with
  | [] => Ok "N/A"
  | unit :: rest =>
      if below_1024 bytes_val then render_bytes bytes_val unit
      else (bytes_val' <~ true_divide ar bytes_val (NFloat 1024) ;;
            format_bytes_loop rest bytes_val')
  end.

(** [format_bytes(bytes_val)] *)
Definition format_bytes (val : option number) : result string :=
  match val with
  | Some n => format_bytes_loop [""; "KB"; "MB"; "GB"; "TB"] n
  | None => Ok "N/A"
  end.

(** The seven metric cells of one row of the storage table of
    [display_tables], evaluated in the order of the call. *)
Definition table_storage_cells (r : storage_result) : result (list string) :=
  let m := default ∅ (metrics r) in
  transactions <~ format_number (m !! "Transactions") 0 ;;
  ingress <~ format_bytes (m !! "Ingress") ;;
  egress <~ format_bytes (m !! "Egress") ;;
  used <~ format_bytes (m !! "UsedCapacity") ;;
  e2e <~ format_number (m !! "SuccessE2ELatency") 2 ;;
  server <~ format_number (m !! "SuccessServerLatency") 2 ;;
  availability <~ format_number (m !! "Availability") 3 ;;
  Ok [transactions; ingress; egress; used; e2e; server; availability].

End Display.

(** The three totals [display_tables] prints under the machine table:
    total, monitored and not monitored. *)
Definition vm_totals (v : vm_summary) : Z * Z * Z :=
  (total_machines v, total_monitored v, total_machines v - total_monitored v).

(* ===================================================================== *)
(** ** Vocabulary of the properties *)
(* ===================================================================== *)

(** A status entry reports a power state: it is a dictionary whose
    ["code"], lower-cased, mentions [powerstate]. *)
Definition has_powerstate_code (status : json) : bool :=
  match py_get status "code" (JStr "") with
  | Ok (JStr c) => contains "powerstate" (lower c)
  | _ => false
  end.

(** The lookup of the instance view has failed: a transport error, a
    status other than 200, or a body that is not JSON. *)
Definition power_lookup_fails (r : http_reply) : Prop :=
  match r with
  | Reply st b => st <> 200 \/ b = None
  | TransportError => True
  end.

(** The statuses the loop of [get_vm_power_state] goes through; none
    when the expression it iterates over raises. *)
Definition reported_statuses (data : json) : list json :=
  match (v <~ py_get data "statuses" (JArr []) ;; py_iter v) with
  | Ok statuses => statuses
  | Raise _ => []
  end.

(** The lookup of the resource health has failed: a transport error, a
    4xx or 5xx status, or a body that is not JSON. *)
Definition health_lookup_fails (r : http_reply) : Prop :=
  match r with
  | Reply st b => response_ok {| status_code := st; body := b |} = false \/ b = None
  | TransportError => True
  end.

(** A reply with a status other than 200. *)
Definition not_200 (r : http_reply) : Prop :=
  match r with
  | Reply st _ => st <> 200
  | TransportError => False
  end.

(** [item.get('properties', {}).get('provisioningState', 'Unknown')] *)
Definition provisioning_of (item : json) : result json :=
  props <~ py_get item "properties" (JObj []) ;;
  py_get props "provisioningState" (JStr "Unknown").

(** The machines of a group; none for a group that does not exist. *)
Definition machines_of (groups : gmap string (list machine)) (rg : string)
  : list machine :=
  default [] (groups !! rg).

(** All the records of an aggregate, group after group. *)
Definition all_machines (groups : gmap string (list machine)) : list machine :=
  map_to_list groups ≫= snd.

(** The counts a summary is read against. *)
Definition monitored_count (ms : list machine) : Z :=
  Z.of_nat (length (filter (fun m => monitored m = true) ms)).

Definition not_monitored_count (ms : list machine) : Z :=
  Z.of_nat (length (filter (fun m => monitored m = false) ms)).

Definition total_count (ms : list machine) : Z := Z.of_nat (length ms).

(** The two global counters agree with the records held. *)
Definition counters_agree (v : vm_summary) : Prop :=
  total_machines v = total_count (all_machines (resource_groups v)) /\
  total_monitored v = monitored_count (all_machines (resource_groups v)) /\
  Forall (fun m => monitored m = String.eqb (insights_status m) "Enabled")
         (all_machines (resource_groups v)).




(** The sum of a list of numbers as the interpreter computes it: the
    additions [((acc + x1) + x2) + ...] from the left, ended by the
    first that raises. *)
Fixpoint add_from (ar : Arithmetic) (acc : number) (l : list number)
  : result number :=
  match l with
  | [] => Ok acc
  | x :: rest => acc' <~ py_add ar acc x ;; add_from ar acc' rest
  end.

Definition sum_of (ar : Arithmetic) (l : list number) : result number :=
  add_from ar (NInt 0) l.





(** The metric entries of a response body. *)
Definition entries_of (data : json) : result (list json) :=
  v <~ py_get data "value" (JArr []) ;; py_iter v.

(** The data points of the first time series of a metric entry, when
    the guard of the loop lets the entry through. *)
Definition series_of (metric : json) : result (option json) :=
  ts <~ py_get metric "timeseries" (JArr []) ;; first_series_data ts.

(** What each of the two requests contributes. *)
Definition capacity_part (ar : Arithmetic) (r : response)
  : result (gmap string number) :=
  if response_ok r then collect_metrics (capacity_step ar) r ∅ else Ok ∅.

Definition metrics_part (ar : Arithmetic) (r : response)
    (metrics : gmap string number) : result (gmap string number) :=
  if response_ok r then collect_metrics (other_step ar) r metrics else Ok metrics.


(** The records of the items [entries], built one after the other from
    the log [log], and the log after the last; none when one of them
    cannot be built. *)
Fixpoint records_of (w : World) (fmt : json -> string) (token : string)
    (entries : list json) (log : list string)
  : option (list resource_info * list string) :=
  match entries with
  | [] => Some ([], log)
  | item :: rest =>
      match resource_info_of w fmt item token log with
      | (Ok i, log') =>
          match records_of w fmt token rest log' with
          | Some (more, log'') => Some (i :: more, log'')
          | None => None
          end
      | (Raise _, _) => None
      end
  end.

(** Two identifiers that differ at most in the letter case of their
    fifth segment, the resource group. *)
Definition same_up_to_group_case (s1 s2 : string) : bool :=
  let a := split_on "/" s1 in
  let b := split_on "/" s2 in
  bool_decide (take 4 a = take 4 b) && bool_decide (drop 5 a = drop 5 b) &&
  match a !! 4%nat, b !! 4%nat with
  | Some g1, Some g2 => String.eqb (lower g1) (lower g2)
  | _, _ => false
  end.



(* ===================================================================== *)
(** ** Scenarios *)
(* ===================================================================== *)

(** A world given by a table of replies per URL; any other URL is not
    found.  The token provider answers [tok]. *)
Fixpoint reply_of (table : list (string * http_reply)) (url : string) : http_reply :=
  match table with
  | [] => Reply 404 None
  | (u, r) :: rest => if String.eqb u url then r else reply_of rest url
  end.

(** The arithmetic of the scenarios: IEEE 754 binary64, rounding to
    nearest, ties to even.  An integer is converted to the nearest
    [float], and is too large when that is no finite one. *)
Definition float_of_int (z : Z) : result float :=
  let f := SF2Prim (binary_normalize prec emax z 0 false) in
  if PrimFloat.is_infinity f then Raise OverflowError else Ok f.

Definition to_float (n : number) : result float :=
  match n with
  | NInt z => float_of_int z
  | NFloat f => Ok f
  end.

(** The quotient of two integers, rounded once: the quotient is taken
    with more bits than a [float] holds, the last of them recording
    whether anything is left. *)
Definition int_quotient (a b : Z) : result float :=
  let negative := xorb (a <? 0) (b <? 0) in
  let n := Z.abs a in
  let d := Z.abs b in
  let k := Z.max 0 (56 + Z.log2 d - Z.log2 n) in
  let q := (n * 2 ^ k) / d in
  let sticky := if (n * 2 ^ k) mod d =? 0 then 0 else 1 in
  let m := 2 * q + sticky in
  let f := SF2Prim (binary_normalize prec emax (if negative then - m else m)
                      (- k - 1) negative) in
  if PrimFloat.is_infinity f then Raise OverflowError else Ok f.

Definition ieee : Arithmetic :=
  {| float_add := fun a b =>
       x <~ to_float a ;;
       y <~ to_float b ;;
       Ok (NFloat (PrimFloat.add x y));
     true_divide := fun a b =>
       match a, b with
       | NInt x, NInt y =>
           if y =? 0 then Raise ZeroDivisionError
           else (f <~ int_quotient x y ;; Ok (NFloat f))
       | _, _ =>
           x <~ to_float a ;;
           y <~ to_float b ;;
           if PrimFloat.eqb y 0 then Raise ZeroDivisionError
           else Ok (NFloat (PrimFloat.div x y))
       end |}.

Definition table_world (tok : option string) (table : list (string * http_reply))
  : World :=
  {| credential := fun _ => tok;
     respond := fun _ url _ => reply_of table url;
     arithmetic := ieee |}.

(** A rendering of non-string values, for the scenarios. *)
Definition plain (v : json) : string :=
  match v with
  | JNull => "None"
  | JBool true => "True"
  | JBool false => "False"
  | _ => "?"
  end.

Definition vm1_id : string :=
  "/subscriptions/s1/resourceGroups/RG-A/providers/Microsoft.Compute/virtualMachines/vm1".

(** An instance view that reports provisioning only. *)
Definition view_without_power : json :=
  JObj [("statuses",
         JArr [JObj [("code", JStr "ProvisioningState/succeeded")]])].

Definition view_deallocated : json :=
  JObj [("statuses",
         JArr [JObj [("code", JStr "ProvisioningState/succeeded")];
               JObj [("code", JStr "PowerState/deallocated")]])].

Definition world_no_power : World :=
  table_world (Some "t")
    [(instance_view_url plain (JStr vm1_id) Compute,
      Reply 200 (Some view_without_power))].

Definition world_deallocated : World :=
  table_world (Some "t")
    [(instance_view_url plain (JStr vm1_id) Compute,
      Reply 200 (Some view_deallocated))].

Definition nic1_id : string :=
  "/subscriptions/s1/resourceGroups/RG-A/providers/Microsoft.Network/networkInterfaces/nic1".

Definition vm1 : json := JObj [("name", JStr "vm1"); ("id", JStr vm1_id)].

Definition nic1 : json :=
  JObj [("name", JStr "nic1"); ("id", JStr nic1_id);
        ("properties", JObj [("provisioningState", JStr "Succeeded")])].

(** Every per-resource lookup is answered with a server error. *)
Definition world_details_down : World :=
  table_world (Some "t")
    [(instance_view_url plain (JStr vm1_id) Compute, Reply 500 None);
     (health_url plain (JStr nic1_id), Reply 503 None)].

Definition nic2_id : string :=
  "/subscriptions/s1/resourceGroups/rg-n/providers/Microsoft.Network/networkInterfaces/nic2".

Definition nic3_id : string :=
  "/subscriptions/s1/resourceGroups/rg-n/providers/Microsoft.Network/networkInterfaces/nic3".

Definition nic2 : json :=
  JObj [("name", JStr "nic2"); ("id", JStr nic2_id);
        ("properties", JObj [("provisioningState", JStr "Succeeded")])].

Definition nic3 : json :=
  JObj [("name", JStr "nic3"); ("id", JStr nic3_id);
        ("properties", JObj [("provisioningState", JStr "Updating")])].

Definition nics_url : string :=
  network_url subscription_id "/providers/Microsoft.Network/networkInterfaces".

Definition nics_listing : json := JObj [("value", JArr [nic2; nic1; nic3])].

Definition available_health : json :=
  JObj [("properties", JObj [("availabilityState", JStr "Available")])].

(** Three network interfaces are listed: the health of the first is
    reported, that of the second is a server error, that of the third
    breaks in transport. *)
Definition world_health_down : World :=
  table_world (Some "t")
    [(nics_url, Reply 200 (Some nics_listing));
     (health_url plain (JStr nic2_id), Reply 200 (Some available_health));
     (health_url plain (JStr nic1_id), Reply 503 None);
     (health_url plain (JStr nic3_id), TransportError)].

Definition nic2_record : resource_info :=
  {| ri_name := JStr "nic2";
     ri_resource_group := "rg-n";
     provisioning_state := JStr "Succeeded";
     health_state := JStr "Available" |}.

(** The health of [nic1] is answered with status 202 and a body. *)
Definition world_health_accepted : World :=
  table_world (Some "t")
    [(health_url plain (JStr nic1_id), Reply 202 (Some available_health))].

Definition vm2_id : string :=
  "/subscriptions/s1/resourceGroups/rg-b/providers/Microsoft.Compute/virtualMachines/vm2".

Definition arc1_id : string :=
  "/subscriptions/s1/resourceGroups/rg-a/providers/Microsoft.HybridCompute/machines/arc1".

Definition vm2 : json := JObj [("name", JStr "vm2"); ("id", JStr vm2_id)].
Definition arc1 : json := JObj [("name", JStr "arc1"); ("id", JStr arc1_id)].

Definition agent_extension : json :=
  JObj [("name", JStr "AzureMonitorLinuxAgent");
        ("properties", JObj [("provisioningState", JStr "Succeeded")])].

(** Two native machines and one Arc machine; [vm1] runs the monitoring
    agent, [arc1] is connected, every other lookup is not found. *)
Definition world_fleet : World :=
  table_world (Some "t")
    [(vms_url subscription_id, Reply 200 (Some (JObj [("value", JArr [vm1; vm2])])));
     (arc_machines_url subscription_id, Reply 200 (Some (JObj [("value", JArr [arc1])])));
     (instance_view_url plain (JStr vm1_id) Compute, Reply 200 (Some view_deallocated));
     (extensions_url plain (JStr vm1_id) Compute,
      Reply 200 (Some (JObj [("value", JArr [agent_extension])])));
     (instance_view_url plain (JStr arc1_id) Arc,
      Reply 200 (Some (JObj [("status", JObj [("status", JStr "Connected")])])))].

Definition acct1_id : string :=
  "/subscriptions/s1/resourceGroups/RG-S/providers/Microsoft.Storage/storageAccounts/acct1".

Definition acct1 : json := JObj [("name", JStr "acct1"); ("id", JStr acct1_id)].

Definition point (f : string) (n : number) : json := JObj [(f, JNum n)].
Definition null_point (f : string) : json := JObj [(f, JNull)].

Definition metric_entry (n : string) (data : list json) : json :=
  JObj [("name", JObj [("value", JStr n)]);
        ("timeseries", JArr [JObj [("data", JArr data)]])].

Definition capacity_points : list json :=
  [point "average" 100; null_point "average"; point "average" 300].

Definition transaction_points : list json :=
  [point "total" 5; JObj []; null_point "total"; point "total" 7].

Definition availability_points : list json :=
  [null_point "average"; null_point "average"].

Definition capacity_body : json :=
  JObj [("value", JArr [metric_entry "UsedCapacity" capacity_points])].

Definition metrics_body : json :=
  JObj [("value", JArr [metric_entry "Transactions" transaction_points;
                        metric_entry "Availability" availability_points;
                        metric_entry "Egress" [null_point "total"]])].

(** Both metric requests of [acct1] are answered. *)
Definition world_metrics : World :=
  table_world (Some "t")
    [(url_capacity plain (JStr acct1_id), Reply 200 (Some capacity_body));
     (url_metrics plain (JStr acct1_id), Reply 200 (Some metrics_body))].

(** The first is refused, the second answered. *)
Definition world_capacity_refused : World :=
  table_world (Some "t")
    [(url_capacity plain (JStr acct1_id), Reply 403 None);
     (url_metrics plain (JStr acct1_id), Reply 200 (Some metrics_body))].

(** The first breaks in transport, the second would be answered. *)
Definition world_capacity_unreachable : World :=
  table_world (Some "t")
    [(url_capacity plain (JStr acct1_id), TransportError);
     (url_metrics plain (JStr acct1_id), Reply 200 (Some metrics_body))].








(** The used capacity is reported as such an integer. *)
Definition world_huge_mean : World :=
  table_world (Some "t")
    [(url_capacity plain (JStr acct1_id),
      Reply 200 (Some (JObj [("value",
                   JArr [metric_entry "UsedCapacity"
                           [point "average" (10 ^ 400)]])])));
     (url_metrics plain (JStr acct1_id), Reply 200 (Some metrics_body))].

(** A storage account whose descriptor carries no identifier. *)
Definition acct_without_id : json := JObj [("name", JStr "orphan")].

Definition nic1_lower_id : string :=
  "/subscriptions/s1/resourceGroups/rg-a/providers/Microsoft.Network/networkInterfaces/nic1".

(** A machine whose identifier has no resource-group segment. *)
Definition vm_malformed : json := JObj [("name", JStr "vm9"); ("id", JStr "abc")].

(** A machine and a network interface without identifier. *)
Definition vm_without_id : json := JObj [("name", JStr "vm0")].
Definition nic_without_id : json := JObj [("name", JStr "nic0")].

Definition vnet1_id : string :=
  "/subscriptions/s1/resourceGroups/rg-n/providers/Microsoft.Network/virtualNetworks/vnet1".

Definition vnet1 : json :=
  JObj [("name", JStr "vnet1"); ("id", JStr vnet1_id);
        ("properties", JObj [("provisioningState", JStr "Succeeded")])].

Definition empty_listing : http_reply := Reply 200 (Some (JObj [("value", JArr [])])).

(** Every listing is answered, virtual networks with one resource; the
    other network kinds are not found. *)
Definition world_network_partial : World :=
  table_world (Some "t")
    [(storage_accounts_url subscription_id, empty_listing);
     (vms_url subscription_id, empty_listing);
     (arc_machines_url subscription_id, empty_listing);
     (network_url subscription_id "/providers/Microsoft.Network/virtualNetworks",
      Reply 200 (Some (JObj [("value", JArr [vnet1])])));
     (health_url plain (JStr vnet1_id),
      Reply 200 (Some (JObj [("properties",
                              JObj [("availabilityState", JStr "Available")])])))].


(** The storage listing is answered; the machine listing is refused. *)
Definition world_vms_down : World :=
  table_world (Some "t")
    [(storage_accounts_url subscription_id, empty_listing);
     (vms_url subscription_id, Reply 403 None);
     (arc_machines_url subscription_id, empty_listing)].



(* ===================================================================== *)
(** ** The remaining functions of the script *)
(* ===================================================================== *)

Definition metric_definitions_url (fmt : json -> string) (resource_id : json)
  : string :=
  resource_url +:+ py_format fmt resource_id
  +:+ "/providers/microsoft.insights/metricDefinitions?api-version="
  +:+ api_version_metrics.

(** [get_storage_account_metric_definitions(resource_id, token)] *)
Definition get_storage_account_metric_definitions (w : World)
    (fmt : json -> string) (resource_id : json) (token : string) : M json :=
  list_resources w (metric_definitions_url fmt resource_id) token.

(** [sum(1 for item in data['items'] if item['health_state'].lower() == state)] *)
Fixpoint count_health (state : string) (acc : Z) (its : list resource_info)
  : result Z :=
  match its with
  | [] => Ok acc
  | item :: rest =>
      h <~ py_lower (health_state item) ;;
      count_health state (if String.eqb h state then acc + 1 else acc) rest
  end.

(** The figures of one row of the network table of [display_tables]:
    count, available, degraded, unavailable. *)
Definition network_table_counts (data : net_entry) : result (Z * Z * Z * Z) :=
  available <~ count_health "available" 0 (items data) ;;
  degraded <~ count_health "degraded" 0 (items data) ;;
  unavailable <~ count_health "unavailable" 0 (items data) ;;
  Ok (count data, available, degraded, unavailable).

(* ===================================================================== *)
(** ** Vocabulary and scenarios of the further properties *)
(* ===================================================================== *)

(** A status entry that the loop of [get_vm_power_state] passes over: a
    dictionary whose code is a string without [powerstate]. *)
Definition quiet_status (status : json) : bool :=
  match py_get status "code" (JStr "") with
  | Ok (JStr c) => negb (contains "powerstate" (lower c))
  | _ => false
  end.

(** What the instance view of an Arc machine says about it, read from
    its [status.status]. *)
Definition arc_state_of (data : json) : string :=
  match data with
  | JObj fs =>
      match assoc_find "status" fs with
      | None => "stopped"
      | Some (JObj sfs) =>
          match assoc_find "status" sfs with
          | None => "stopped"
          | Some (JStr c) =>
              if String.eqb (lower c) "connected" then "running" else "stopped"
          | Some _ => "unknown"
          end
      | Some _ => "unknown"
      end
  | _ => "unknown"
  end.

(** The instance view of the Arc machine [arc1] is answered with [view]. *)
Definition world_arc_view (view : json) : World :=
  table_world (Some "t")
    [(instance_view_url plain (JStr arc1_id) Arc, Reply 200 (Some view))].

(** What the loop of [get_vm_insights_status] finds in one extension:
    an Azure Monitor agent whose provisioning has succeeded. *)
Definition provisioned_agent (ext : json) : result bool :=
  n <~ py_get ext "name" (JStr "") ;;
  ext_name <~ py_lower n ;;
  if contains "azuremonitor" ext_name && contains "agent" ext_name then
    props <~ py_get ext "properties" (JObj []) ;;
    st <~ py_get props "provisioningState" JNull ;;
    Ok (eq_str st "Succeeded")
  else Ok false.

(** The extensions a response lists. *)
Definition extensions_of (data : json) : result (list json) :=
  v <~ py_get data "value" (JArr []) ;; py_iter v.

(** The extensions lookup ends in an exception: the transport fails, or
    the answer has status 200 and a body that is not JSON. *)
Definition extensions_lookup_raises (r : http_reply) : Prop :=
  match r with
  | Reply st b => st = 200 /\ b = None
  | TransportError => True
  end.

Definition dcr_body : json :=
  JObj [("value", JArr [JObj [("name", JStr "dcr-assoc")]])].

(** The extensions of [vm1] cannot be read although the machine has a
    data-collection rule. *)
Definition world_extensions_unreadable : World :=
  table_world (Some "t")
    [(extensions_url plain (JStr vm1_id) Compute, Reply 200 None);
     (dcr_url plain (JStr vm1_id), Reply 200 (Some dcr_body))].

(** The extensions of [vm1] are forbidden; it has a data-collection rule. *)
Definition world_dcr_only : World :=
  table_world (Some "t")
    [(extensions_url plain (JStr vm1_id) Compute, Reply 403 None);
     (dcr_url plain (JStr vm1_id), Reply 200 (Some dcr_body))].

(** The group key [process_vm] derives for a descriptor. *)
Definition descriptor_key (vm : json) : result string :=
  i <~ py_get vm "id" (JStr "") ;; vm_group_key i.

(** The names of the descriptors of [vms] whose key is [rg], in the
    order of [vms]. *)
Definition names_in_group (rg : string) (vms : list json) : list json :=
  omap (fun vm =>
          match descriptor_key vm, py_get vm "name" (JStr "Unnamed") with
          | Ok k, Ok n => if String.eqb k rg then Some n else None
          | _, _ => None
          end) vms.

(** Name and kind of the records of a group. *)
Definition labels (ms : list machine) : list (json * vm_kind) :=
  map (fun m => (name m, type m)) ms.

(** No group is empty and every key is in lower case. *)
Definition groups_well_keyed (groups : gmap string (list machine)) : Prop :=
  forall rg ms, groups !! rg = Some ms -> ms <> [] /\ lower rg = rg.

(** No character of [s] is [sep]. *)
Fixpoint free_of (sep : ascii) (s : string) : bool :=
  match s with
  | EmptyString => true
  | String c r => negb (Ascii.eqb c sep) && free_of sep r
  end.

(** The identifier of a resource of group [g] in subscription [sub];
    [rest] names the provider, the type and the resource. *)
Definition arm_id (sub g rest : string) : string :=
  "/subscriptions/" +:+ sub +:+ "/resourceGroups/" +:+ g +:+ "/" +:+ rest.

(** No kind lists more items than it counts. *)
Definition items_within_count (nm : gmap string net_entry) : Prop :=
  forall k e, nm !! k = Some e -> Z.of_nat (length (items e)) <= count e.

(** The health state of a record reads [state], in any letter case. *)
Definition health_is (state : string) (i : resource_info) : bool :=
  match health_state i with
  | JStr s => String.eqb (lower s) state
  | _ => false
  end.

Definition health_is_text (i : resource_info) : bool :=
  match health_state i with
  | JStr _ => true
  | _ => false
  end.

(** How many records of [its] read [state]. *)
Definition health_total (state : string) (its : list resource_info) : Z :=
  Z.of_nat (length (List.filter (health_is state) its)).

(** The health of [vnet1] is reported without an availability state. *)
Definition world_health_null : World :=
  table_world (Some "t")
    [(network_url subscription_id "/providers/Microsoft.Network/virtualNetworks",
      Reply 200 (Some (JObj [("value", JArr [vnet1])])));
     (health_url plain (JStr vnet1_id),
      Reply 200 (Some (JObj [("properties",
                              JObj [("availabilityState", JNull)])])))].



(** Every key of the mapping is a column of the report. *)
Definition keys_in_catalog (m : gmap string number) : Prop :=
  forall k, is_Some (m !! k) -> k ∈ metric_columns.

(** A metric entry that is read without exception and has no data
    series: its [timeseries] is empty, or the first series has no
    ["data"]. *)
Definition without_series (metric : json) : Prop :=
  (exists n, metric_name metric = Ok n) /\ series_of metric = Ok None.

Definition acct_empty_id : json := JObj [("name", JStr "blank"); ("id", JStr "")].

Definition bare_entry (n : string) : json :=
  JObj [("name", JObj [("value", JStr n)]); ("timeseries", JArr [])].

(** Both metric requests of [acct1] are answered with entries that have
    no time series. *)
Definition world_no_series : World :=
  table_world (Some "t")
    [(url_capacity plain (JStr acct1_id),
      Reply 200 (Some (JObj [("value", JArr [bare_entry "UsedCapacity"])])));
     (url_metrics plain (JStr acct1_id),
      Reply 200 (Some (JObj [("value", JArr [bare_entry "Transactions";
                                              bare_entry "Availability"])])))].

(* ===================================================================== *)
(** * Properties *)
(* ===================================================================== *)

(* ===================================================================== *)
(** ** Running the monad *)
(* ===================================================================== *)

Ltac run :=
  unfold bind, lift, ret, raise, try_except, requests_get, get_token;
  cbn [fst snd rbind].

Lemma rbind_ok {A B} (r : result A) (k : A -> result B) (b : B) :
  rbind r k = Ok b -> exists a, r = Ok a /\ k a = Ok b.
Proof. destruct r as [a|e]; cbn; [eauto | discriminate]. Qed.


(* ===================================================================== *)
(** ** Power state *)
(* ===================================================================== *)

Lemma scan_statuses_no_code (statuses : list json) :
  Forall (fun s => has_powerstate_code s = false) statuses ->
  forall state, scan_statuses statuses <> Ok (Some state).
Proof.
  induction 1 as [|s l Hs _ IH]; intros state; cbn; [discriminate|].
  unfold has_powerstate_code in Hs.
  destruct (py_get s "code" (JStr "")) as [c|e]; cbn; [|discriminate].
  destruct c; cbn; try discriminate.
  rewrite Hs. apply IH.
Qed.

Lemma power_state_lookup_failure w fmt rid token vm_type log :
  power_lookup_fails
    (respond w log (instance_view_url fmt rid vm_type) ("Bearer " +:+ token)) ->
  get_vm_power_state w fmt rid token vm_type log
  = (Ok "unknown", log ++ [instance_view_url fmt rid vm_type]).
Proof.
  intros Hfail. unfold get_vm_power_state. run.
  destruct (respond w log _ _) as [st b|]; cbn in *; [|reflexivity].
  destruct (Z.eqb_spec st 200) as [->|Hne]; [|reflexivity].
  destruct Hfail as [Hst | ->]; [congruence|]. reflexivity.
Qed.

(** The power-state lookup never raises. *)
Lemma get_vm_power_state_total w fmt rid token vm_type log :
  exists state,
    get_vm_power_state w fmt rid token vm_type log
    = (Ok state, log ++ [instance_view_url fmt rid vm_type]).
Proof.
  unfold get_vm_power_state. run.
  destruct (respond w log _ _) as [st b|]; cbn; [|eauto].
  destruct (st =? 200); [|eauto].
  unfold response_json; cbn. destruct b as [data|]; [|eauto].
  destruct vm_type.
  - destruct (rbind _ _) as [[state|]|e]; eauto.
  - destruct (rbind _ _) as [status|e]; eauto.
Qed.

(** C10. A native VM whose instance view comes back with status 200 and
    a status list in which no code mentions [powerstate] is reported as
    ["unknown"], not as ["stopped"]. *)
Theorem power_state_unknown_without_code w fmt rid token log data :
  respond w log (instance_view_url fmt rid Compute) ("Bearer " +:+ token)
  = Reply 200 (Some data) ->
  existsb has_powerstate_code (reported_statuses data) = false ->
  get_vm_power_state w fmt rid token Compute log
  = (Ok "unknown", log ++ [instance_view_url fmt rid Compute]).
Proof.
  intros Hreply Hnone. unfold get_vm_power_state. run. rewrite Hreply. cbn.
  unfold reported_statuses in Hnone.
  destruct (py_get data "statuses" (JArr [])) as [v|e]; cbn in *; [|reflexivity].
  destruct (py_iter v) as [statuses|e]; cbn in *; [|reflexivity].
  assert (Hall : Forall (fun s => has_powerstate_code s = false) statuses).
  { apply Forall_forall. intros s Hs.
    destruct (has_powerstate_code s) eqn:E; [|reflexivity].
    assert (existsb has_powerstate_code statuses = true); [|congruence].
    apply existsb_exists. exists s. split; [|exact E].
    by apply list_elem_of_In. }
  pose proof (scan_statuses_no_code statuses Hall) as Hscan.
  destruct (scan_statuses statuses) as [[state|]|e]; cbn; try reflexivity.
  exfalso. by apply (Hscan state).
Qed.

Lemma power_state_unknown_without_code_witness :
  get_vm_power_state world_no_power plain (JStr vm1_id) "t" Compute []
  = (Ok "unknown", [instance_view_url plain (JStr vm1_id) Compute]).
Proof.
  apply (power_state_unknown_without_code world_no_power plain (JStr vm1_id) "t" []
           view_without_power); reflexivity.
Defined.

(** A reported power state other than running reads ["stopped"]. *)
Example power_state_stopped_when_reported :
  (get_vm_power_state world_deallocated plain (JStr vm1_id) "t" Compute []).1
  = Ok "stopped".
Proof. reflexivity. Qed.

(* ===================================================================== *)
(** ** Monitoring status and [process_vm] *)
(* ===================================================================== *)

(** The monitoring check never raises. *)
Lemma get_vm_insights_status_total w fmt rid token vm_type log :
  exists status log',
    get_vm_insights_status w fmt rid token vm_type log = (Ok status, log').
Proof.
  unfold get_vm_insights_status. run.
  destruct (respond w log _ _) as [st b|]; cbn; [|eauto].
  match goal with |- context [if ?c then ?a else Ok false] =>
    destruct (if c then a else Ok false) as [[|]|e] end; cbn; eauto.
  destruct (respond w _ _ _) as [st' b'|]; cbn; [|eauto].
  match goal with |- context [if ?c then ?a else Ok false] =>
    destruct (if c then a else Ok false) as [[|]|e] end; cbn; eauto.
Qed.

Lemma group_append_lookup (groups : gmap string (list machine)) rg r :
  alter (fun ms => ms ++ [r]) rg
    (match groups !! rg with
     | None => <[rg := []]> groups
     | Some _ => groups
     end) !! rg
  = Some (machines_of groups rg ++ [r]).
Proof.
  unfold machines_of. rewrite lookup_alter_eq.
  destruct (groups !! rg) as [ms|] eqn:E; cbn.
  - by rewrite E.
  - by rewrite lookup_insert_eq.
Qed.

Lemma group_append_lookup_ne (groups : gmap string (list machine)) rg rg' r :
  rg <> rg' ->
  alter (fun ms => ms ++ [r]) rg
    (match groups !! rg with
     | None => <[rg := []]> groups
     | Some _ => groups
     end) !! rg'
  = groups !! rg'.
Proof.
  intros Hne. rewrite lookup_alter_ne by done.
  destruct (groups !! rg); [done|]. by rewrite lookup_insert_ne.
Qed.

(** What [process_vm] does once the group key has been derived: both
    lookups return, the record goes to the end of its group and the
    counters move. *)
Lemma process_vm_run w fmt vm vm_type token v log rid rg :
  py_get vm "id" (JStr "") = Ok rid ->
  vm_group_key rid = Ok rg ->
  exists n power status log1 log2,
    py_get vm "name" (JStr "Unnamed") = Ok n /\
    get_vm_power_state w fmt rid token vm_type log = (Ok power, log1) /\
    get_vm_insights_status w fmt rid token vm_type log1 = (Ok status, log2) /\
    let r := {| name := n; type := vm_type; power_state := power;
                monitored := String.eqb status "Enabled";
                insights_status := status |} in
    process_vm w fmt vm vm_type token v log
    = (Ok {| total_machines := total_machines v + 1;
             total_monitored := if String.eqb status "Enabled"
                                then total_monitored v + 1
                                else total_monitored v;
             resource_groups :=
               alter (fun ms => ms ++ [r]) rg
                 (match resource_groups v !! rg with
                  | None => <[rg := []]> (resource_groups v)
                  | Some _ => resource_groups v
                  end) |}, log2).
Proof.
  intros Hid Hrg.
  destruct vm as [| | | | |fs]; try discriminate.
  destruct (get_vm_power_state_total w fmt rid token vm_type log) as [power Hp].
  destruct (get_vm_insights_status_total w fmt rid token vm_type
              (log ++ [instance_view_url fmt rid vm_type])) as (status & log2 & Hs).
  eexists _, power, status, _, log2. split; [reflexivity|].
  split; [exact Hp|]. split; [exact Hs|].
  unfold process_vm, bind, lift, ret. cbn [py_get]. cbn in Hid.
  injection Hid as ->. rewrite Hrg, Hp, Hs. reflexivity.
Qed.

(* ===================================================================== *)
(** ** Resource health and the network records *)
(* ===================================================================== *)

Lemma health_lookup_failure w fmt rid token log :
  truthy rid = true ->
  health_lookup_fails (respond w log (health_url fmt rid) ("Bearer " +:+ token)) ->
  get_resource_health w fmt rid token log
  = (Ok (JStr "Unknown"), log ++ [health_url fmt rid]).
Proof.
  intros Ht Hfail. unfold get_resource_health. rewrite Ht. cbn [negb]. run.
  destruct (respond w log _ _) as [st b|]; cbn in *; [|reflexivity].
  destruct Hfail as [-> | ->]; [reflexivity|].
  by destruct (response_ok _).
Qed.

(** The health lookup never raises. *)
Lemma get_resource_health_total w fmt rid token log :
  exists h log', get_resource_health w fmt rid token log = (Ok h, log').
Proof.
  unfold get_resource_health. destruct (truthy rid); cbn; [|unfold ret; eauto].
  run. destruct (respond w log _ _) as [st b|]; cbn; [|eauto].
  destruct (response_ok _); [|eauto].
  destruct (response_json _) as [data|e]; cbn; [|eauto].
  destruct (rbind _ _) as [h|e]; eauto.
Qed.

Lemma network_group_id item rg :
  network_group item = Ok rg ->
  exists s, py_get item "id" (JStr "") = Ok (JStr s) /\
            py_get item "id" JNull = Ok (JStr s) /\
            truthy (JStr s) = true.
Proof.
  unfold network_group. destruct item as [| | | | |fs]; try discriminate.
  cbn. destruct (assoc_find "id" fs) as [i|]; cbn.
  - destruct i as [| | |s| |]; try discriminate. intros H.
    exists s. repeat split. destruct s; [discriminate|reflexivity].
  - discriminate.
Qed.

Lemma chars_length s : length (chars s) = String.length s.
Proof. induction s as [|c s IH]; cbn; [reflexivity | by rewrite IH]. Qed.

Lemma py_len_iter v n :
  py_len v = Ok n ->
  exists l, py_iter v = Ok l /\ n = Z.of_nat (length l).
Proof.
  destruct v as [| | |s|l|fs]; cbn; try discriminate; intros [= <-].
  - eexists. split; [reflexivity|]. by rewrite length_map, chars_length.
  - eauto.
  - eexists. split; [reflexivity|]. by rewrite length_map.
Qed.

Lemma append_items_entry w fmt rt token entries nm log :
  exists nm' log',
    append_items w fmt rt token entries nm log = (Ok nm', log') /\
    dom nm' = dom nm /\
    (forall k, k <> rt -> nm' !! k = nm !! k) /\
    (forall e, nm !! rt = Some e ->
       exists e' more,
         nm' !! rt = Some e' /\ count e' = count e /\
         items e' = items e ++ more /\
         (length more <= length entries)%nat).
Proof.
  revert nm log. induction entries as [|item rest IH]; intros nm log.
  - exists nm, log. split; [reflexivity|]. split; [done|]. split; [done|].
    intros e He. exists e, []. by rewrite app_nil_r.
  - cbn [append_items]. unfold bind at 1. unfold try_except. unfold bind at 1.
    destruct (resource_info_of w fmt item token log) as [[i|e] log1]; unfold ret.
    + destruct (IH (alter (add_item i) rt nm) log1)
        as (nm' & log' & Hrun & Hdom & Hk & He).
      exists nm', log'. split; [exact Hrun|]. split; [|split].
      * by rewrite Hdom, dom_alter_L.
      * intros k Hne. rewrite (Hk k Hne). by apply lookup_alter_ne.
      * intros e Hlook.
        destruct (He (add_item i e)) as (e' & more & Hl & Hc & Hi & Hlen).
        { by rewrite lookup_alter_eq, Hlook. }
        exists e', (i :: more). split; [exact Hl|]. split; [exact Hc|].
        split; [rewrite Hi; cbn [add_item items]; by rewrite <- app_assoc|].
        cbn [length]. lia.
    + exists nm, log1. split; [reflexivity|]. split; [done|]. split; [done|].
      intros e0 He0. exists e0, []. rewrite app_nil_r.
      split; [exact He0|]. split; [done|]. split; [done|]. cbn. lia.
Qed.

(** The items that are read without exception are appended one after
    the other, and the loop goes on with the next. *)
Lemma append_items_records w fmt rt token pre rest nm log infos log1 e :
  records_of w fmt token pre log = Some (infos, log1) ->
  nm !! rt = Some e ->
  exists nm1,
    append_items w fmt rt token (pre ++ rest) nm log
    = append_items w fmt rt token rest nm1 log1 /\
    nm1 !! rt = Some {| count := count e; items := items e ++ infos |}.
Proof.
  revert nm log infos e. induction pre as [|item pre IH]; intros nm log infos e.
  - cbn. intros [= <- <-] He. exists nm. split; [reflexivity|].
    rewrite app_nil_r. by destruct e.
  - cbn [records_of app append_items]. intros Hrec He.
    unfold bind at 1. unfold try_except. unfold bind at 1.
    destruct (resource_info_of w fmt item token log) as [[i|ex] log0];
      [|discriminate].
    destruct (records_of w fmt token pre log0) as [[more log2]|] eqn:Hmore;
      [|discriminate].
    injection Hrec as <- <-. unfold ret.
    destruct (IH (alter (add_item i) rt nm) log0 more (add_item i e) Hmore)
      as (nm1 & Hrun & Hlook).
    { by rewrite lookup_alter_eq, He. }
    exists nm1. split; [exact Hrun|]. rewrite Hlook.
    cbn [add_item count items]. by rewrite <- app_assoc.
Qed.

(** C6. A resource whose detail lookup fails keeps its record.  For a
    machine: when the instance-view lookup fails (transport error, status
    other than 200, or an unreadable body), [get_vm_power_state] returns
    ["unknown"] without raising, [process_vm] appends the machine's
    record with that power state to its resource group, and the total
    count grows by one.  For a network resource: when the health lookup
    fails (transport error, 4xx or 5xx status, or an unreadable body),
    [get_resource_health] returns ["Unknown"] without raising; with the
    resource listed after items that are read without exception, the
    entry of its kind holds, after the records of those items, the
    record of the resource with that health state, and counts every
    item of the listing. *)
Theorem detail_failure_keeps_record w fmt token log :
  (forall vm vm_type v rid rg,
     py_get vm "id" (JStr "") = Ok rid ->
     vm_group_key rid = Ok rg ->
     power_lookup_fails
       (respond w log (instance_view_url fmt rid vm_type) ("Bearer " +:+ token)) ->
     get_vm_power_state w fmt rid token vm_type log
     = (Ok "unknown", log ++ [instance_view_url fmt rid vm_type]) /\
     exists v' log' r,
       process_vm w fmt vm vm_type token v log = (Ok v', log') /\
       power_state r = "unknown" /\
       resource_groups v' !! rg = Some (machines_of (resource_groups v) rg ++ [r]) /\
       total_machines v' = total_machines v + 1)
  /\
  (forall sub rt path nm e0 st data pre item post infos log1 rid rg state,
     respond w log (network_url sub path) ("Bearer " +:+ token)
     = Reply st (Some data) ->
     response_ok {| status_code := st; body := Some data |} = true ->
     py_get data "value" (JArr []) = Ok (JArr (pre ++ item :: post)) ->
     nm !! rt = Some e0 ->
     records_of w fmt token pre (log ++ [network_url sub path])
     = Some (infos, log1) ->
     py_get item "id" JNull = Ok rid ->
     network_group item = Ok rg ->
     provisioning_of item = Ok state ->
     health_lookup_fails
       (respond w log1 (health_url fmt rid) ("Bearer " +:+ token)) ->
     get_resource_health w fmt rid token log1
     = (Ok (JStr "Unknown"), log1 ++ [health_url fmt rid]) /\
     exists i nm' log' e' more,
       resource_info_of w fmt item token log1
       = (Ok i, log1 ++ [health_url fmt rid]) /\
       health_state i = JStr "Unknown" /\
       collect_kind w fmt sub token nm (rt, path) log = (Ok nm', log') /\
       nm' !! rt = Some e' /\
       items e' = items e0 ++ infos ++ i :: more /\
       count e' = Z.of_nat (length (pre ++ item :: post))).
Proof.
  split.
  - intros vm vm_type v rid rg Hid Hrg Hfail.
    pose proof (power_state_lookup_failure w fmt rid token vm_type log Hfail) as Hp.
    split; [exact Hp|].
    destruct (process_vm_run w fmt vm vm_type token v log rid rg Hid Hrg)
      as (n & power & status & log1 & log2 & Hn & Hp' & Hs & Hrun).
    rewrite Hp in Hp'. injection Hp' as <- <-.
    eexists _, log2, _. split; [exact Hrun|].
    cbn [resource_groups total_machines].
    refine (conj _ (conj (group_append_lookup _ _ _) eq_refl)). reflexivity.
  - intros sub rt path nm e0 st data pre item post infos log1 rid rg state
           Hreply Hok Hvalue Hnm Hpre Hid Hrg Hst Hfail.
    destruct (network_group_id item rg Hrg) as (s & Hid1 & Hid2 & Ht).
    rewrite Hid2 in Hid. injection Hid as <-.
    pose proof (health_lookup_failure w fmt (JStr s) token log1 Ht Hfail) as Hh.
    split; [exact Hh|].
    set (i := {| ri_name := default JNull
                              (match item with
                               | JObj fs => assoc_find "name" fs
                               | _ => None
                               end);
                 ri_resource_group := rg;
                 provisioning_state := state;
                 health_state := JStr "Unknown" |}).
    assert (Hinfo : resource_info_of w fmt item token log1
                    = (Ok i, log1 ++ [health_url fmt (JStr s)])).
    { unfold resource_info_of, bind, lift, ret.
      unfold provisioning_of in Hst. subst i.
      destruct item as [| | | | |fs]; try discriminate.
      cbn [py_get] in Hst, Hid2 |- *. cbv beta iota.
      rewrite Hrg. cbv beta iota. rewrite Hst. cbv beta iota.
      injection Hid2 as ->. rewrite Hh. reflexivity. }
    set (n := Z.of_nat (length (pre ++ item :: post))).
    destruct (append_items_records w fmt rt token pre (item :: post)
                (alter (set_count n) rt nm) (log ++ [network_url sub path])
                infos log1 (set_count n e0) Hpre)
      as (nm1 & Hrun1 & Hnm1).
    { by rewrite lookup_alter_eq, Hnm. }
    cbn [set_count count items] in Hnm1.
    destruct (append_items_entry w fmt rt token post
                (alter (add_item i) rt nm1) (log1 ++ [health_url fmt (JStr s)]))
      as (nm' & log' & Hrun2 & _ & _ & Hentry).
    destruct (Hentry (add_item i {| count := n; items := items e0 ++ infos |}))
      as (e' & more & Hlook & Hcount & Hitems & _).
    { by rewrite lookup_alter_eq, Hnm1. }
    exists i, nm', log', e', more. split; [exact Hinfo|].
    split; [reflexivity|]. split; [|split; [exact Hlook|split]].
    + unfold collect_kind. cbn [fst snd]. unfold try_except at 1.
      unfold bind at 1. unfold requests_get at 1. rewrite Hreply.
      cbv beta iota. rewrite Hok. unfold bind at 1. unfold lift at 1.
      unfold response_json. cbn [body]. cbv beta iota.
      unfold bind at 1. unfold lift at 1. rewrite Hvalue. cbv beta iota.
      unfold bind at 1. unfold lift at 1. cbn [py_len]. cbv beta iota.
      fold n. unfold try_except. unfold bind at 1. unfold lift at 1.
      cbn [py_iter]. cbv beta iota. rewrite Hrun1.
      cbn [append_items]. unfold bind at 1. unfold try_except.
      unfold bind at 1. rewrite Hinfo. unfold ret at 1. cbv beta iota.
      by rewrite Hrun2.
    + rewrite Hitems. cbn [add_item items]. by rewrite <- !app_assoc.
    + rewrite Hcount. reflexivity.
Qed.

Lemma detail_failure_keeps_record_witness :
  (get_vm_power_state world_details_down plain (JStr vm1_id) "t" Compute []
   = (Ok "unknown", [instance_view_url plain (JStr vm1_id) Compute]) /\
   exists v' log' r,
     process_vm world_details_down plain vm1 Compute "t" initial_vm_metrics []
     = (Ok v', log') /\
     power_state r = "unknown" /\
     resource_groups v' !! "rg-a" = Some ([] ++ [r]) /\
     total_machines v' = 0 + 1)
  /\
  (get_resource_health world_health_down plain (JStr nic1_id) "t"
     [nics_url; health_url plain (JStr nic2_id)]
   = (Ok (JStr "Unknown"),
      [nics_url; health_url plain (JStr nic2_id); health_url plain (JStr nic1_id)]) /\
   exists i nm' log' e' more,
     resource_info_of world_health_down plain nic1 "t"
       [nics_url; health_url plain (JStr nic2_id)]
     = (Ok i, [nics_url; health_url plain (JStr nic2_id);
               health_url plain (JStr nic1_id)]) /\
     health_state i = JStr "Unknown" /\
     collect_kind world_health_down plain subscription_id "t"
       initial_network_metrics
       ("network_interfaces", "/providers/Microsoft.Network/networkInterfaces") []
     = (Ok nm', log') /\
     nm' !! "network_interfaces" = Some e' /\
     items e' = [] ++ [nic2_record] ++ i :: more /\
     count e' = 3).
Proof.
  split.
  - apply (proj1 (detail_failure_keeps_record world_details_down plain "t" [])
             vm1 Compute initial_vm_metrics (JStr vm1_id) "rg-a").
    + reflexivity.
    + reflexivity.
    + cbn. left. lia.
  - apply (proj2 (detail_failure_keeps_record world_health_down plain "t" [])
             subscription_id "network_interfaces"
             "/providers/Microsoft.Network/networkInterfaces"
             initial_network_metrics empty_entry 200 nics_listing
             [nic2] nic1 [nic3] [nic2_record]
             [nics_url; health_url plain (JStr nic2_id)]
             (JStr nic1_id) "RG-A" (JStr "Succeeded")).
    + reflexivity.
    + reflexivity.
    + reflexivity.
    + reflexivity.
    + vm_compute. reflexivity.
    + reflexivity.
    + reflexivity.
    + reflexivity.
    + cbn. left. reflexivity.
Defined.

(** The record of a resource whose health lookup has failed, and those
    of its neighbours, as the aggregate holds them at the end. *)
Example failed_health_lookup_in_aggregate :
  match (collect_kind world_health_down plain subscription_id "t"
           initial_network_metrics
           ("network_interfaces", "/providers/Microsoft.Network/networkInterfaces")
           []).1 with
  | Ok nm =>
      match nm !! "network_interfaces" with
      | Some e => count e = 3 /\
                  map health_state (items e)
                  = [JStr "Available"; JStr "Unknown"; JStr "Unknown"]
      | None => False
      end
  | Raise _ => False
  end.
Proof. vm_compute. split; reflexivity. Qed.

(** A health lookup answered with a status other than 200 that is no
    4xx or 5xx is read like a success: the record carries the state the
    answer reports, not ["Unknown"]. *)
Lemma accepted_health_reply_is_read :
  not_200 (respond world_health_accepted [] (health_url plain (JStr nic1_id))
             "Bearer t") /\
  get_resource_health world_health_accepted plain (JStr nic1_id) "t" []
  = (Ok (JStr "Available"), [health_url plain (JStr nic1_id)]) /\
  exists i,
    resource_info_of world_health_accepted plain nic1 "t" []
    = (Ok i, [health_url plain (JStr nic1_id)]) /\
    health_state i = JStr "Available" /\
    health_state i <> JStr "Unknown".
Proof.
  split; [by vm_compute|]. split; [reflexivity|].
  eexists. split; [reflexivity|]. split; [reflexivity|]. discriminate.
Qed.

(* ===================================================================== *)
(** ** The counters of the machine aggregate *)
(* ===================================================================== *)

Lemma all_machines_append (groups : gmap string (list machine)) rg r :
  all_machines
    (alter (fun ms => ms ++ [r]) rg
       (match groups !! rg with
        | None => <[rg := []]> groups
        | Some _ => groups
        end))
  ≡ₚ r :: all_machines groups.
Proof.
  unfold all_machines. destruct (groups !! rg) as [ms|] eqn:E.
  - rewrite <- (insert_delete_id groups rg ms E) at 1.
    rewrite alter_insert_eq.
    rewrite map_to_list_insert by apply lookup_delete_eq.
    rewrite <- (map_to_list_delete groups rg ms E).
    cbn. rewrite <- !app_assoc. cbn.
    by rewrite <- Permutation_middle.
  - rewrite alter_insert_eq.
    rewrite map_to_list_insert by exact E. reflexivity.
Qed.

Lemma process_vm_inv w fmt vm vm_type token v log v' log' :
  process_vm w fmt vm vm_type token v log = (Ok v', log') ->
  exists rg r,
    monitored r = String.eqb (insights_status r) "Enabled" /\
    total_machines v' = total_machines v + 1 /\
    total_monitored v' = (if monitored r then total_monitored v + 1
                          else total_monitored v) /\
    resource_groups v'
    = alter (fun ms => ms ++ [r]) rg
        (match resource_groups v !! rg with
         | None => <[rg := []]> (resource_groups v)
         | Some _ => resource_groups v
         end).
Proof.
  intros Hrun.
  destruct (py_get vm "id" (JStr "")) as [rid|e] eqn:Hid.
  2:{ unfold process_vm, bind, lift in Hrun.
      destruct (py_get vm "name" _); [|discriminate].
      rewrite Hid in Hrun. discriminate. }
  destruct (vm_group_key rid) as [rg|e] eqn:Hrg.
  2:{ unfold process_vm, bind, lift in Hrun.
      destruct (py_get vm "name" _); [|discriminate].
      rewrite Hid, Hrg in Hrun. discriminate. }
  destruct (process_vm_run w fmt vm vm_type token v log rid rg Hid Hrg)
    as (n & power & status & log1 & log2 & _ & _ & _ & Hv).
  cbv zeta in Hv. rewrite Hv in Hrun. injection Hrun as <- <-.
  eexists rg, _. cbn. repeat split; reflexivity.
Qed.

Lemma process_vm_counters w fmt vm vm_type token v log v' log' :
  process_vm w fmt vm vm_type token v log = (Ok v', log') ->
  counters_agree v -> counters_agree v'.
Proof.
  intros Hrun (Htot & Hmon & Hflag).
  destruct (process_vm_inv _ _ _ _ _ _ _ _ _ Hrun) as (rg & r & Hr & Ht & Hm & Hg).
  unfold counters_agree, total_count, monitored_count.
  rewrite Hg, Ht, Hm. rewrite !all_machines_append.
  rewrite filter_cons. cbn [length].
  split; [|split].
  - unfold total_count in Htot. lia.
  - unfold monitored_count in Hmon. destruct (monitored r); cbn.
    + rewrite decide_True by done. cbn [length]. lia.
    + rewrite decide_False by done. lia.
  - constructor; assumption.
Qed.

Lemma process_vms_counters w fmt vms vm_type token v log v' log' :
  process_vms w fmt vms vm_type token v log = (Ok v', log') ->
  counters_agree v -> counters_agree v'.
Proof.
  revert v log. induction vms as [|vm vms IH]; intros v log Hrun Hv.
  - cbn in Hrun. unfold ret in Hrun. by injection Hrun as <- <-.
  - cbn in Hrun. unfold bind in Hrun.
    destruct (process_vm w fmt vm vm_type token v log) as [[v1|e] log1] eqn:E;
      [|discriminate].
    eapply IH; [exact Hrun|]. eapply process_vm_counters; eauto.
Qed.

Lemma initial_counters_agree : counters_agree initial_vm_metrics.
Proof.
  unfold counters_agree, all_machines. cbn.
  rewrite map_to_list_empty. cbn. repeat split. constructor.
Qed.

Lemma get_vm_metrics_counters w fmt token log v log' :
  get_vm_metrics w fmt token log = (Ok v, log') -> counters_agree v.
Proof.
  unfold get_vm_metrics, bind. intros Hrun.
  destruct (get_vms w subscription_id token log) as [[cv|e] l1]; [|discriminate].
  destruct (lift (py_iter cv) l1) as [[vms|e] l2]; [|discriminate].
  destruct (process_vms w fmt vms Compute token initial_vm_metrics l2)
    as [[v1|e] l3] eqn:E1; [|discriminate].
  destruct (get_arc_machines w subscription_id token l3) as [[am|e] l4];
    [|discriminate].
  destruct (lift (py_iter am) l4) as [[machines|e] l5]; [|discriminate].
  eapply process_vms_counters; [exact Hrun|].
  eapply process_vms_counters; [exact E1|]. apply initial_counters_agree.
Qed.

Lemma monitored_split (ms : list machine) :
  monitored_count ms + not_monitored_count ms = total_count ms.
Proof.
  unfold monitored_count, not_monitored_count, total_count.
  induction ms as [|m ms IH]; [reflexivity|].
  rewrite !filter_cons. destruct (monitored m); cbn.
  - rewrite decide_True, decide_False by done. cbn [length]. lia.
  - rewrite decide_False, decide_True by done. cbn [length]. lia.
Qed.

(** C7. After [get_vm_metrics] the counter of monitored machines is the
    number of records whose [monitored] flag is set, and monitored plus
    not monitored is the total: for the global summary, with the
    counters the script keeps and the "not monitored" figure it prints,
    and for every resource group, with the counts of its records.  The
    flag of a record is the monitoring status read as ["Enabled"]. *)
Theorem monitored_count_invariant w fmt token log v log' :
  get_vm_metrics w fmt token log = (Ok v, log') ->
  let ms := all_machines (resource_groups v) in
  (total_monitored v = monitored_count ms /\
   total_machines v = total_count ms /\
   match vm_totals v with
   | (total, mon, not_mon) =>
       mon + not_mon = total /\ not_mon = not_monitored_count ms
   end) /\
  (forall rg group,
     resource_groups v !! rg = Some group ->
     monitored_count group + not_monitored_count group = total_count group) /\
  Forall (fun m => monitored m = String.eqb (insights_status m) "Enabled") ms.
Proof.
  intros Hrun ms.
  destruct (get_vm_metrics_counters w fmt token log v log' Hrun)
    as (Htot & Hmon & Hflag).
  fold ms in Htot, Hmon, Hflag.
  pose proof (monitored_split ms) as Hsplit.
  split; [|split].
  - split; [exact Hmon|]. split; [exact Htot|].
    unfold vm_totals. split; lia.
  - intros rg group _. apply monitored_split.
  - exact Hflag.
Qed.

Lemma monitored_count_invariant_witness :
  exists v log',
    get_vm_metrics world_fleet plain "t" [] = (Ok v, log') /\
    total_machines v = 3 /\ total_monitored v = 1 /\
    let ms := all_machines (resource_groups v) in
    (total_monitored v = monitored_count ms /\
     total_machines v = total_count ms /\
     match vm_totals v with
     | (total, mon, not_mon) =>
         mon + not_mon = total /\ not_mon = not_monitored_count ms
     end) /\
    (forall rg group,
       resource_groups v !! rg = Some group ->
       monitored_count group + not_monitored_count group = total_count group) /\
    Forall (fun m => monitored m = String.eqb (insights_status m) "Enabled") ms.
Proof.
  eexists _, _. split; [vm_compute; reflexivity|].
  split; [reflexivity|]. split; [reflexivity|].
  eapply (monitored_count_invariant world_fleet plain "t" []).
  vm_compute. reflexivity.
Defined.

(* ===================================================================== *)
(** ** Reduction of a series *)
(* ===================================================================== *)









(** The arithmetic of the scenarios on a few operands: a quotient and
    a sum that round, integers beyond the precision of a float, and an
    integer beyond its range. *)
Example ieee_samples :
  true_divide ieee (NInt 4) (NInt 3) = Ok (NFloat 1.3333333333333333) /\
  float_add ieee (NFloat 0.1) (NFloat 0.2) = Ok (NFloat 0.30000000000000004) /\
  sum_of ieee [NFloat 0.1; NFloat 0.2; NFloat 0.3]
  = Ok (NFloat 0.6000000000000001) /\
  py_add ieee (NInt (2 ^ 53)) (NInt 1) = Ok (NInt 9007199254740993) /\
  float_add ieee (NInt (2 ^ 53 + 1)) (NFloat 0) = Ok (NFloat 9007199254740992) /\
  float_add ieee (NInt (10 ^ 400)) (NFloat 0.5) = Raise OverflowError /\
  true_divide ieee (NInt (10 ^ 400)) (NInt 1) = Raise OverflowError.
Proof. vm_compute. repeat split; reflexivity. Qed.




(* ===================================================================== *)
(** ** The two requests of [get_storage_account_metrics] *)
(* ===================================================================== *)

Ltac split_steps :=
  repeat (match goal with
          | |- context [if ?c then _ else _] => destruct c
          end);
  cbn [rbind];
  repeat (match goal with
          | |- context [rbind ?r _] => destruct r; cbn [rbind]
          end).

(** A step of the second loop adds its sample whatever the mapping
    already holds. *)
Lemma other_step_union ar (a m : gmap string number) metric :
  other_step ar (a ∪ m) metric = (a' <~ other_step ar a metric ;; Ok (a' ∪ m)).
Proof.
  unfold other_step.
  destruct (metric_name metric) as [mname|]; cbn [rbind]; [|done].
  destruct (py_get metric "timeseries" _); cbn [rbind]; [|done].
  destruct (first_series_data _) as [[d|]|]; cbn [rbind]; [|done|done].
  split_steps; try done; by rewrite insert_union_l.
Qed.

Lemma for_each_other_union ar (a m : gmap string number) entries :
  for_each (other_step ar) (a ∪ m) entries
  = (a' <~ for_each (other_step ar) a entries ;; Ok (a' ∪ m)).
Proof.
  revert a. induction entries as [|x xs IH]; intros a; [reflexivity|].
  cbn [for_each]. rewrite other_step_union.
  destruct (other_step ar a x) as [a1|e]; cbn [rbind]; [apply IH | reflexivity].
Qed.

Lemma metrics_part_union ar r (m : gmap string number) :
  metrics_part ar r m = (s <~ metrics_part ar r ∅ ;; Ok (s ∪ m)).
Proof.
  unfold metrics_part. destruct (response_ok r); cbn [rbind].
  2:{ by rewrite (left_id_L ∅ (∪)). }
  unfold collect_metrics.
  destruct (response_json r); cbn [rbind]; [|done].
  destruct (py_get _ _ _); cbn [rbind]; [|done].
  destruct (py_iter _) as [entries|]; cbn [rbind]; [|done].
  rewrite <- (left_id_L ∅ (∪) m) at 1. apply for_each_other_union.
Qed.

(** The second loop never writes the key of the first. *)
Lemma other_step_capacity ar (a a' : gmap string number) metric :
  other_step ar a metric = Ok a' -> a' !! "UsedCapacity" = a !! "UsedCapacity".
Proof.
  unfold other_step.
  destruct (metric_name metric) as [mname|]; cbn [rbind]; [|done].
  destruct (py_get metric "timeseries" _); cbn [rbind]; [|done].
  destruct (first_series_data _) as [[d|]|]; cbn [rbind]; [| |done].
  2:{ by intros [= <-]. }
  destruct (String.eqb_spec mname "transactions") as [->|_].
  { split_steps; intros [= <-]. by rewrite lookup_insert_ne. }
  destruct (String.eqb_spec mname "ingress") as [->|_].
  { cbn [orb]. split_steps; intros [= <-]. by rewrite lookup_insert_ne. }
  destruct (String.eqb_spec mname "egress") as [->|_].
  { cbn [orb]. split_steps; intros [= <-]. by rewrite lookup_insert_ne. }
  cbn [orb].
  split_steps; intros [= <-]; try done; by rewrite lookup_insert_ne.
Qed.

Lemma for_each_other_capacity ar entries (a a' : gmap string number) :
  for_each (other_step ar) a entries = Ok a' ->
  a' !! "UsedCapacity" = a !! "UsedCapacity".
Proof.
  revert a. induction entries as [|x xs IH]; intros a; cbn [for_each].
  - by intros [= <-].
  - destruct (other_step ar a x) as [a1|e] eqn:E; cbn [rbind]; [|done].
    intros H. rewrite (IH _ H). by apply (other_step_capacity ar a a1 x).
Qed.

Lemma metrics_part_capacity ar r (m m' : gmap string number) :
  metrics_part ar r m = Ok m' -> m' !! "UsedCapacity" = m !! "UsedCapacity".
Proof.
  unfold metrics_part, collect_metrics. destruct (response_ok r).
  2:{ by intros [= <-]. }
  destruct (response_json r); cbn [rbind]; [|done].
  destruct (py_get _ _ _); cbn [rbind]; [|done].
  destruct (py_iter _) as [entries|]; cbn [rbind]; [|done].
  apply for_each_other_capacity.
Qed.

(** The first loop writes no other key. *)
Lemma capacity_step_keys ar (a a' : gmap string number) metric k :
  capacity_step ar a metric = Ok a' -> k <> "UsedCapacity" -> a' !! k = a !! k.
Proof.
  unfold capacity_step. intros H Hk. revert H.
  destruct (metric_name metric) as [mname|]; cbn [rbind]; [|done].
  destruct (py_get metric "timeseries" _); cbn [rbind]; [|done].
  destruct (first_series_data _) as [[d|]|]; cbn [rbind]; [| |done].
  2:{ by intros [= <-]. }
  split_steps; intros [= <-]; try done. by rewrite lookup_insert_ne.
Qed.

Lemma capacity_part_keys ar r (m : gmap string number) k :
  capacity_part ar r = Ok m -> k <> "UsedCapacity" -> m !! k = None.
Proof.
  unfold capacity_part, collect_metrics. intros H Hk. revert H.
  destruct (response_ok r).
  2:{ intros [= <-]. apply lookup_empty. }
  destruct (response_json r); cbn [rbind]; [|done].
  destruct (py_get _ _ _); cbn [rbind]; [|done].
  destruct (py_iter _) as [entries|]; cbn [rbind]; [|done].
  assert (Hgen : forall acc, for_each (capacity_step ar) acc entries = Ok m ->
                             m !! k = acc !! k).
  { induction entries as [|x xs IH]; intros acc; cbn [for_each].
    - by intros [= <-].
    - destruct (capacity_step ar acc x) as [acc1|e] eqn:E; cbn [rbind]; [|done].
      intros H. rewrite (IH _ H). by apply (capacity_step_keys ar acc acc1 x). }
  intros H. rewrite (Hgen _ H). apply lookup_empty.
Qed.

(** The function, once the identifier is there and the first request
    has been answered. *)
Lemma get_storage_account_metrics_run w fmt sa token log rid st1 b1 :
  py_get sa "id" JNull = Ok rid ->
  truthy rid = true ->
  respond w log (url_capacity fmt rid) ("Bearer " +:+ token) = Reply st1 b1 ->
  get_storage_account_metrics w fmt sa token log
  = match capacity_part (arithmetic w) {| status_code := st1; body := b1 |} with
    | Raise e => (Raise e, log ++ [url_capacity fmt rid])
    | Ok m1 =>
        match respond w (log ++ [url_capacity fmt rid]) (url_metrics fmt rid)
                ("Bearer " +:+ token) with
        | Reply st2 b2 =>
            (m2 <~ metrics_part (arithmetic w)
                     {| status_code := st2; body := b2 |} m1 ;;
             Ok (Some m2),
             log ++ [url_capacity fmt rid; url_metrics fmt rid])
        | TransportError =>
            (Raise ConnectionError,
             log ++ [url_capacity fmt rid; url_metrics fmt rid])
        end
    end.
Proof.
  intros Hid Ht Hr1. unfold get_storage_account_metrics.
  unfold bind at 1. unfold lift at 1. rewrite Hid, Ht. cbn [negb].
  unfold bind at 1. unfold requests_get at 1. rewrite Hr1.
  unfold bind at 1. unfold lift at 1. unfold capacity_part.
  match goal with |- context [if response_ok ?r then ?a else ?b] =>
    destruct (if response_ok r then a else b) as [m1|e] end; [|reflexivity].
  unfold bind at 1. unfold requests_get at 1.
  rewrite <- app_assoc. cbn [app]. clear Hr1.
  destruct (respond w (log ++ [url_capacity fmt rid]) (url_metrics fmt rid)
              ("Bearer " +:+ token)) as [st2 b2|]; [|reflexivity].
  unfold bind, lift, ret, metrics_part.
  match goal with |- context [if response_ok ?r then ?a else ?b] =>
    destruct (if response_ok r then a else b) as [m2|e] end; reflexivity.
Qed.




Lemma collect_metrics_entries step r data entries (m : gmap string number) :
  body r = Some data ->
  entries_of data = Ok entries ->
  collect_metrics step r m = for_each step m entries.
Proof.
  unfold collect_metrics, response_json, entries_of. intros -> H. cbn [rbind].
  destruct (py_get data "value" (JArr [])); cbn [rbind] in *; [|discriminate].
  by rewrite H.
Qed.





(** An all-null series gives the integer 0, and integers are added
    exactly: the [Egress] and [Transactions] entries of the scenario. *)
Example all_null_sum_is_zero :
  match (get_storage_account_metrics world_metrics plain acct1 "t" []).1 with
  | Ok (Some m) => m !! "Egress" = Some (NInt 0) /\ m !! "Transactions" = Some (NInt 12)
  | _ => False
  end.
Proof. vm_compute. split; reflexivity. Qed.



(** A mean whose division overflows: the function raises. *)
Example huge_mean_raises :
  get_storage_account_metrics world_huge_mean plain acct1 "t" []
  = (Raise OverflowError, [url_capacity plain (JStr acct1_id)]).
Proof. vm_compute. reflexivity. Qed.

(** C8. [get_storage_account_metrics] issues two requests,
    the first for UsedCapacity and the second for the other metrics, and
    returns the union of what the two contribute; the first writes the
    key [UsedCapacity] only and the second never writes it.  A request
    answered with a 4xx or 5xx status contributes nothing, and what the
    other request contributes is returned. *)
Theorem normalizer_merges_two_calls w fmt sa token log rid st1 b1 st2 b2 :
  py_get sa "id" JNull = Ok rid ->
  truthy rid = true ->
  respond w log (url_capacity fmt rid) ("Bearer " +:+ token) = Reply st1 b1 ->
  respond w (log ++ [url_capacity fmt rid]) (url_metrics fmt rid)
    ("Bearer " +:+ token) = Reply st2 b2 ->
  let ar := arithmetic w in
  let r1 := {| status_code := st1; body := b1 |} in
  let r2 := {| status_code := st2; body := b2 |} in
  let run := get_storage_account_metrics w fmt sa token log in
  run.1 = (m1 <~ capacity_part ar r1 ;;
           m2 <~ metrics_part ar r2 ∅ ;;
           Ok (Some (m2 ∪ m1))) /\
  (forall m1, capacity_part ar r1 = Ok m1 ->
     run.2 = log ++ [url_capacity fmt rid; url_metrics fmt rid] /\
     forall k, k <> "UsedCapacity" -> m1 !! k = None) /\
  (forall m2, metrics_part ar r2 ∅ = Ok m2 -> m2 !! "UsedCapacity" = None) /\
  (response_ok r1 = false ->
     run = (m2 <~ metrics_part ar r2 ∅ ;; Ok (Some m2),
            log ++ [url_capacity fmt rid; url_metrics fmt rid])) /\
  (response_ok r2 = false ->
     run.1 = (m1 <~ capacity_part ar r1 ;; Ok (Some m1))).
Proof.
  intros Hid Ht Hr1 Hr2 ar r1 r2 run.
  assert (Hrun : run
           = match capacity_part ar r1 with
             | Raise e => (Raise e, log ++ [url_capacity fmt rid])
             | Ok m1 => (m2 <~ metrics_part ar r2 m1 ;; Ok (Some m2),
                         log ++ [url_capacity fmt rid; url_metrics fmt rid])
             end).
  { unfold run.
    rewrite (get_storage_account_metrics_run w fmt sa token log rid st1 b1
               Hid Ht Hr1).
    fold r1 ar. destruct (capacity_part ar r1); [|reflexivity]. by rewrite Hr2. }
  split; [|split; [|split; [|split]]].
  - rewrite Hrun. destruct (capacity_part ar r1) as [m1|e]; cbn [fst rbind]; [|done].
    rewrite metrics_part_union. by destruct (metrics_part ar r2 ∅).
  - intros m1 Hm1. split.
    + rewrite Hrun, Hm1. reflexivity.
    + intros k Hk. by apply (capacity_part_keys ar r1).
  - intros m2 Hm2. rewrite (metrics_part_capacity _ _ _ _ Hm2). apply lookup_empty.
  - intros Hfail. rewrite Hrun. unfold capacity_part. by rewrite Hfail.
  - intros Hfail. rewrite Hrun. destruct (capacity_part ar r1) as [m1|e]; [|done].
    cbn [fst rbind]. unfold metrics_part. by rewrite Hfail.
Qed.

Lemma normalizer_merges_two_calls_witness :
  let ar := arithmetic world_capacity_refused in
  let r1 := {| status_code := 403; body := None |} in
  let r2 := {| status_code := 200; body := Some metrics_body |} in
  let run := get_storage_account_metrics world_capacity_refused plain acct1 "t" [] in
  run.1 = (m1 <~ capacity_part ar r1 ;;
           m2 <~ metrics_part ar r2 ∅ ;;
           Ok (Some (m2 ∪ m1))) /\
  (forall m1, capacity_part ar r1 = Ok m1 ->
     run.2 = [url_capacity plain (JStr acct1_id); url_metrics plain (JStr acct1_id)] /\
     forall k, k <> "UsedCapacity" -> m1 !! k = None) /\
  (forall m2, metrics_part ar r2 ∅ = Ok m2 -> m2 !! "UsedCapacity" = None) /\
  (response_ok r1 = false ->
     run = (m2 <~ metrics_part ar r2 ∅ ;; Ok (Some m2),
            [url_capacity plain (JStr acct1_id); url_metrics plain (JStr acct1_id)])) /\
  (response_ok r2 = false ->
     run.1 = (m1 <~ capacity_part ar r1 ;; Ok (Some m1))).
Proof.
  apply (normalizer_merges_two_calls world_capacity_refused plain acct1 "t" []
           (JStr acct1_id) 403 None 200 (Some metrics_body));
    reflexivity.
Defined.

(** With the first request refused, the samples of the second are there. *)
Example refused_capacity_keeps_other_samples :
  match (get_storage_account_metrics world_capacity_refused plain acct1 "t" []).1 with
  | Ok (Some m) => m !! "Transactions" = Some (NInt 12) /\ m !! "UsedCapacity" = None
  | _ => False
  end.
Proof. vm_compute. split; reflexivity. Qed.

(** A request that breaks in transport is not absorbed: the exception
    leaves [get_storage_account_metrics], and the second request, which
    would have been answered, is never made. *)
Lemma transport_failure_escapes_normalizer :
  get_storage_account_metrics world_capacity_unreachable plain acct1 "t" []
  = (Raise ConnectionError, [url_capacity plain (JStr acct1_id)]) /\
  respond world_capacity_unreachable [url_capacity plain (JStr acct1_id)]
    (url_metrics plain (JStr acct1_id)) "Bearer t"
  = Reply 200 (Some metrics_body).
Proof. split; reflexivity. Qed.

(* ===================================================================== *)
(** ** A descriptor without identifier *)
(* ===================================================================== *)

(** C9. For a storage account without an ["id"] field,
    [get_storage_account_metrics] returns [None] and issues no request;
    [main] records the account with that [None]; the export and the
    table put an empty mapping in its place, so that each of the seven
    metric columns reads ["N/A"]. *)
Theorem missing_id_yields_none w fmt fields token log :
  assoc_find "id" fields = None ->
  get_storage_account_metrics w fmt (JObj fields) token log = (Ok None, log) /\
  (forall acc,
     collect_storage w fmt token [JObj fields] acc log
     = (Ok (acc ++ [ {| storage_account :=
                          default (JStr "N/A") (assoc_find "name" fields);
                        resource_group := "N/A";
                        metrics := None |} ]), log)) /\
  (forall n rg,
     csv_storage_row {| storage_account := n; resource_group := rg;
                        metrics := None |}
     = n :: JStr rg :: replicate 7 (JStr "N/A")) /\
  (forall ar render_number render_bytes n rg,
     table_storage_cells ar render_number render_bytes
       {| storage_account := n; resource_group := rg; metrics := None |}
     = Ok (replicate 7 "N/A")).
Proof.
  intros Hid.
  assert (Hrun : get_storage_account_metrics w fmt (JObj fields) token log
                 = (Ok None, log)).
  { unfold get_storage_account_metrics, bind, lift, ret. cbn [py_get].
    rewrite Hid. reflexivity. }
  split; [exact Hrun|]. split; [|split].
  - intros acc. cbn [collect_storage]. unfold bind at 1. unfold lift at 1.
    cbn [py_get]. unfold bind at 1. rewrite Hrun.
    unfold bind, lift, ret, storage_group. cbn [py_in rbind].
    rewrite Hid. rewrite bool_decide_false by (intros [x Hx]; discriminate).
    reflexivity.
  - intros n rg. reflexivity.
  - intros ar render_number render_bytes n rg. reflexivity.
Qed.

Lemma missing_id_yields_none_witness :
  get_storage_account_metrics world_metrics plain acct_without_id "t" []
  = (Ok None, []) /\
  (forall acc,
     collect_storage world_metrics plain "t" [acct_without_id] acc []
     = (Ok (acc ++ [ {| storage_account := JStr "orphan";
                        resource_group := "N/A";
                        metrics := None |} ]), [])) /\
  (forall n rg,
     csv_storage_row {| storage_account := n; resource_group := rg;
                        metrics := None |}
     = n :: JStr rg :: replicate 7 (JStr "N/A")) /\
  (forall ar render_number render_bytes n rg,
     table_storage_cells ar render_number render_bytes
       {| storage_account := n; resource_group := rg; metrics := None |}
     = Ok (replicate 7 "N/A")).
Proof.
  apply (missing_id_yields_none world_metrics plain [("name", JStr "orphan")] "t" []).
  reflexivity.
Defined.

(* ===================================================================== *)
(** ** The resource-group key *)
(* ===================================================================== *)

(** The key under which [process_vm] groups a machine is the fifth
    segment of its identifier in lower case: two identifiers that differ
    only in the case of that segment give the same key.  For a storage
    account and for a network resource the segment is taken as it is
    written. *)
Theorem group_key_of_identifier s1 s2 g1 g2 :
  same_up_to_group_case s1 s2 = true ->
  split_on "/" s1 !! 4%nat = Some g1 ->
  split_on "/" s2 !! 4%nat = Some g2 ->
  (vm_group_key (JStr s1) = Ok (lower g1) /\
   vm_group_key (JStr s2) = Ok (lower g1)) /\
  (forall fs1 fs2,
     assoc_find "id" fs1 = Some (JStr s1) ->
     assoc_find "id" fs2 = Some (JStr s2) ->
     storage_group (JObj fs1) = Ok g1 /\ storage_group (JObj fs2) = Ok g2 /\
     network_group (JObj fs1) = Ok g1 /\ network_group (JObj fs2) = Ok g2).
Proof.
  intros Hsame H1 H2. unfold same_up_to_group_case in Hsame.
  rewrite H1, H2 in Hsame.
  apply andb_prop in Hsame as [_ Hlow]. apply String.eqb_eq in Hlow.
  assert (Hne : forall s g, split_on "/" s !! 4%nat = Some g -> truthy (JStr s) = true).
  { intros s g Hs. destruct s; [discriminate|reflexivity]. }
  split.
  - unfold vm_group_key, split_segment4.
    rewrite (Hne s1 g1 H1), (Hne s2 g2 H2). cbv beta iota.
    rewrite H1, H2. cbn [rbind].
    by rewrite Hlow.
  - intros fs1 fs2 Hf1 Hf2.
    unfold storage_group, network_group, py_in, py_get, split_segment4.
    rewrite Hf1, Hf2. unfold rbind, default. cbv beta iota.
    rewrite !bool_decide_true by eauto. cbv beta iota delta [id].
    by rewrite H1, H2.
Qed.

Lemma group_key_of_identifier_witness :
  (vm_group_key (JStr nic1_id) = Ok (lower "RG-A") /\
   vm_group_key (JStr nic1_lower_id) = Ok (lower "RG-A")) /\
  (forall fs1 fs2,
     assoc_find "id" fs1 = Some (JStr nic1_id) ->
     assoc_find "id" fs2 = Some (JStr nic1_lower_id) ->
     storage_group (JObj fs1) = Ok "RG-A" /\ storage_group (JObj fs2) = Ok "rg-a" /\
     network_group (JObj fs1) = Ok "RG-A" /\ network_group (JObj fs2) = Ok "rg-a").
Proof.
  apply (group_key_of_identifier nic1_id nic1_lower_id "RG-A" "rg-a");
    reflexivity.
Defined.

(** C2. The derivation of the resource group is case-normalized for
    machines only: two network resources, and two storage accounts,
    whose identifiers differ only in the case of the resource-group
    segment are given different groups, where [process_vm] would give
    one key. *)
Lemma group_case_kept_outside_machines :
  same_up_to_group_case nic1_id nic1_lower_id = true /\
  network_group (JObj [("id", JStr nic1_id)]) = Ok "RG-A" /\
  network_group (JObj [("id", JStr nic1_lower_id)]) = Ok "rg-a" /\
  storage_group (JObj [("id", JStr nic1_id)]) = Ok "RG-A" /\
  storage_group (JObj [("id", JStr nic1_lower_id)]) = Ok "rg-a" /\
  network_group (JObj [("id", JStr nic1_id)])
  <> network_group (JObj [("id", JStr nic1_lower_id)]).
Proof. repeat split; try reflexivity. discriminate. Qed.

(** A machine whose identifier is missing or empty is not dropped:
    [process_vm] returns, the record is appended to the group
    ["unknown"] and the total count grows by one. *)
Theorem missing_id_goes_to_unknown_group w fmt fields vm_type token v log :
  truthy (default (JStr "") (assoc_find "id" fields)) = false ->
  exists v' log' r,
    process_vm w fmt (JObj fields) vm_type token v log = (Ok v', log') /\
    name r = default (JStr "Unnamed") (assoc_find "name" fields) /\
    resource_groups v' !! "unknown"
    = Some (machines_of (resource_groups v) "unknown" ++ [r]) /\
    total_machines v' = total_machines v + 1.
Proof.
  intros Hfalsy.
  destruct (process_vm_run w fmt (JObj fields) vm_type token v log
              (default (JStr "") (assoc_find "id" fields)) "unknown")
    as (n & power & status & log1 & log2 & Hn & _ & _ & Hrun).
  - reflexivity.
  - unfold vm_group_key. by rewrite Hfalsy.
  - eexists _, log2, _. split; [exact Hrun|].
    cbn [resource_groups total_machines].
    refine (conj _ (conj (group_append_lookup _ _ _) eq_refl)).
    cbn in Hn |- *. by injection Hn as <-.
Qed.

Lemma missing_id_goes_to_unknown_group_witness :
  exists v' log' r,
    process_vm world_details_down plain vm_without_id Compute "t"
      initial_vm_metrics [] = (Ok v', log') /\
    name r = JStr "vm0" /\
    resource_groups v' !! "unknown" = Some ([] ++ [r]) /\
    total_machines v' = 0 + 1.
Proof.
  apply (missing_id_goes_to_unknown_group world_details_down plain
           [("name", JStr "vm0")] Compute "t" initial_vm_metrics []).
  reflexivity.
Defined.

(** C3. The sentinel group covers a missing identifier of a machine
    only.  A machine whose identifier has fewer than five segments makes
    [process_vm] raise, instead of going to the group ["unknown"]; a
    network resource without identifier is left out of the items,
    together with the resources listed after it. *)
Lemma malformed_id_is_not_kept :
  process_vm world_details_down plain vm_malformed Compute "t"
    initial_vm_metrics []
  = (Raise IndexError, []) /\
  append_items world_details_down plain "network_interfaces" "t"
    [nic_without_id; nic1] initial_network_metrics []
  = (Ok initial_network_metrics, []).
Proof. split; reflexivity. Qed.

(* ===================================================================== *)
(** ** Listing failures *)
(* ===================================================================== *)












Lemma resources_initial kind :
  kind ∈ resources -> initial_network_metrics !! kind.1 = Some empty_entry.
Proof.
  intros H. unfold resources in H.
  repeat (apply elem_of_cons in H as [->|H]); try (by vm_compute).
  by apply elem_of_nil in H.
Qed.




(** With ten of the eleven network listings not found the run still
    completes: the kind that answered holds its resource, a kind that
    did not is empty. *)
Example network_failures_do_not_abort :
  exit_code world_network_partial plain [] = 0 /\
  match (main world_network_partial plain []).1 with
  | Ok s =>
      (count <$> network_metrics s !! "virtual_networks") = Some 1 /\
      network_metrics s !! "route_tables" = Some empty_entry
  | Raise _ => False
  end.
Proof. vm_compute. repeat split; reflexivity. Qed.


(** The same for the listing of machines, after the storage accounts
    have been collected. *)
Example machine_listing_failure_aborts :
  (main world_vms_down plain []).1 = Raise HTTPError /\
  exit_code world_vms_down plain [] = 1.
Proof. split; reflexivity. Qed.

(* ===================================================================== *)
(** * Further properties *)
(* ===================================================================== *)

(* ===================================================================== *)
(** ** Further properties: the enumerators *)
(* ===================================================================== *)

(** Whatever the answer, a listing is one request: a continuation link
    in the body is never followed.  A 4xx or 5xx status raises; a body
    without ["value"] is an empty listing. *)
Theorem listing_is_one_request w url token log :
  (forall fmt sub rid,
     get_vms w sub token = list_resources w (vms_url sub) token /\
     get_arc_machines w sub token = list_resources w (arc_machines_url sub) token /\
     get_storage_account_metric_definitions w fmt rid token
     = list_resources w (metric_definitions_url fmt rid) token) /\
  (list_resources w url token log).2 = log ++ [url] /\
  (forall st b,
     respond w log url ("Bearer " +:+ token) = Reply st b ->
     response_ok {| status_code := st; body := b |} = false ->
     (list_resources w url token log).1 = Raise HTTPError) /\
  (forall st fs,
     respond w log url ("Bearer " +:+ token) = Reply st (Some (JObj fs)) ->
     response_ok {| status_code := st; body := Some (JObj fs) |} = true ->
     (list_resources w url token log).1
     = Ok (default (JArr []) (assoc_find "value" fs))).
Proof.
  split; [by intros fmt sub rid|].
  unfold list_resources, bind, requests_get, lift, raise_for_status.
  destruct (respond w log url ("Bearer " +:+ token)) as [st b|] eqn:E.
  - cbv beta iota. split; [|split].
    + destruct (response_ok _); [|reflexivity].
      cbv beta iota. destruct (response_json _); [|reflexivity].
      cbv beta iota. reflexivity.
    + intros st' b' [= <- <-] Hfail. by rewrite Hfail.
    + intros st' fs [= <- ->] Hok. by rewrite Hok.
  - split; [reflexivity|]. split; intros; discriminate.
Qed.

Lemma listing_is_one_request_witness :
  (list_resources world_vms_down (vms_url subscription_id) "t" []).2
  = [] ++ [vms_url subscription_id] /\
  (list_resources world_vms_down (vms_url subscription_id) "t" []).1
  = Raise HTTPError /\
  (list_resources world_network_partial (vms_url subscription_id) "t" []).1
  = Ok (default (JArr []) (assoc_find "value" [("value", JArr [])])).
Proof.
  split; [|split].
  - apply (proj1 (proj2 (listing_is_one_request world_vms_down
                           (vms_url subscription_id) "t" []))).
  - apply (proj1 (proj2 (proj2 (listing_is_one_request world_vms_down
                                  (vms_url subscription_id) "t" []))) 403 None);
      reflexivity.
  - apply (proj2 (proj2 (proj2 (listing_is_one_request world_network_partial
                                  (vms_url subscription_id) "t" [])))
             200 [("value", JArr [])]); reflexivity.
Defined.

(* ===================================================================== *)
(** ** Further properties: power state *)
(* ===================================================================== *)

Lemma scan_statuses_range statuses state :
  scan_statuses statuses = Ok (Some state) ->
  state = "running" \/ state = "stopped".
Proof.
  induction statuses as [|s l IH]; cbn; [discriminate|].
  destruct (py_get s "code" (JStr "")) as [c|e]; cbn; [|discriminate].
  destruct (py_lower c) as [code|e]; cbn; [|discriminate].
  destruct (contains "powerstate" code); [|exact IH].
  destruct (contains "running" code); intros [= <-]; auto.
Qed.

(** The power state is one of three words, whatever the answer. *)
Theorem power_state_range w fmt rid token vm_type log :
  exists state,
    get_vm_power_state w fmt rid token vm_type log
    = (Ok state, log ++ [instance_view_url fmt rid vm_type]) /\
    (state = "running" \/ state = "stopped" \/ state = "unknown").
Proof.
  unfold get_vm_power_state. run.
  destruct (respond w log _ _) as [st b|]; cbn; [|eauto 6].
  destruct (st =? 200); [|eauto 6].
  unfold response_json; cbn. destruct b as [data|]; [|eauto 6].
  destruct vm_type.
  - destruct (rbind _ _) as [[state|]|e] eqn:E; [|eauto 6|eauto 6].
    eexists. split; [reflexivity|].
    destruct (py_get data "statuses" (JArr [])) as [v|]; [|discriminate].
    cbn [rbind] in E. destruct (py_iter v) as [l|]; [|discriminate].
    cbn [rbind] in E. destruct (scan_statuses_range l state E); auto.
  - destruct (rbind _ _) as [status|e]; [|eauto 6].
    destruct (String.eqb status "connected"); eauto 6.
Qed.

(** For an Arc machine whose instance view is answered with status 200
    and a JSON body, the body decides: the machine runs when
    [status.status] is a string that reads [connected] in any letter
    case; it is stopped when that string reads anything else, or is
    missing, the view having no [status] or a dictionary without
    [status]; and the state is unknown when the view is no dictionary,
    when its [status] is present and no dictionary, as a null is, or
    when [status.status] is no string.  One request is made. *)
Theorem arc_power_state_decoding w fmt rid token log data :
  respond w log (instance_view_url fmt rid Arc) ("Bearer " +:+ token)
  = Reply 200 (Some data) ->
  get_vm_power_state w fmt rid token Arc log
  = (Ok (arc_state_of data), log ++ [instance_view_url fmt rid Arc]).
Proof.
  intros Hreply. unfold get_vm_power_state. run. rewrite Hreply. cbn.
  destruct data as [| | | | |fs]; try reflexivity. cbn.
  destruct (assoc_find "status" fs) as [[| | | | |sfs]|]; try reflexivity. cbn.
  destruct (assoc_find "status" sfs) as [[| | |c| |]|]; reflexivity.
Qed.

Lemma arc_power_state_decoding_witness :
  get_vm_power_state world_fleet plain (JStr arc1_id) "t" Arc []
  = (Ok "running", [instance_view_url plain (JStr arc1_id) Arc]) /\
  get_vm_power_state
    (world_arc_view (JObj [("status", JObj [("status", JStr "Disconnected")])]))
    plain (JStr arc1_id) "t" Arc []
  = (Ok "stopped", [instance_view_url plain (JStr arc1_id) Arc]) /\
  get_vm_power_state (world_arc_view (JObj [("name", JStr "arc1")]))
    plain (JStr arc1_id) "t" Arc []
  = (Ok "stopped", [instance_view_url plain (JStr arc1_id) Arc]) /\
  get_vm_power_state (world_arc_view (JObj [("status", JObj [])]))
    plain (JStr arc1_id) "t" Arc []
  = (Ok "stopped", [instance_view_url plain (JStr arc1_id) Arc]) /\
  get_vm_power_state (world_arc_view (JObj [("status", JNull)]))
    plain (JStr arc1_id) "t" Arc []
  = (Ok "unknown", [instance_view_url plain (JStr arc1_id) Arc]) /\
  get_vm_power_state
    (world_arc_view (JObj [("status", JObj [("status", JNull)])]))
    plain (JStr arc1_id) "t" Arc []
  = (Ok "unknown", [instance_view_url plain (JStr arc1_id) Arc]) /\
  get_vm_power_state (world_arc_view (JArr []))
    plain (JStr arc1_id) "t" Arc []
  = (Ok "unknown", [instance_view_url plain (JStr arc1_id) Arc]).
Proof.
  split; [|split; [|split; [|split; [|split; [|split]]]]].
  - apply (arc_power_state_decoding world_fleet plain (JStr arc1_id) "t" []
             (JObj [("status", JObj [("status", JStr "Connected")])])).
    reflexivity.
  - apply (arc_power_state_decoding (world_arc_view _) plain (JStr arc1_id) "t" []
             (JObj [("status", JObj [("status", JStr "Disconnected")])])).
    reflexivity.
  - apply (arc_power_state_decoding (world_arc_view _) plain (JStr arc1_id) "t" []
             (JObj [("name", JStr "arc1")])).
    reflexivity.
  - apply (arc_power_state_decoding (world_arc_view _) plain (JStr arc1_id) "t" []
             (JObj [("status", JObj [])])).
    reflexivity.
  - apply (arc_power_state_decoding (world_arc_view _) plain (JStr arc1_id) "t" []
             (JObj [("status", JNull)])).
    reflexivity.
  - apply (arc_power_state_decoding (world_arc_view _) plain (JStr arc1_id) "t" []
             (JObj [("status", JObj [("status", JNull)])])).
    reflexivity.
  - apply (arc_power_state_decoding (world_arc_view _) plain (JStr arc1_id) "t" []
             (JArr [])).
    reflexivity.
Defined.

Lemma scan_statuses_first pre status post c :
  forallb quiet_status pre = true ->
  py_get status "code" (JStr "") = Ok (JStr c) ->
  contains "powerstate" (lower c) = true ->
  scan_statuses (pre ++ status :: post)
  = Ok (Some (if contains "running" (lower c) then "running" else "stopped")).
Proof.
  intros Hpre Hcode Hpower. induction pre as [|s pre IH].
  - cbn. rewrite Hcode. cbn. by rewrite Hpower.
  - cbn in Hpre. apply andb_prop in Hpre as [Hs Hpre]. cbn.
    unfold quiet_status in Hs.
    destruct (py_get s "code" (JStr "")) as [[| | |cs| |]|]; try discriminate.
    cbn. apply negb_true_iff in Hs. rewrite Hs. by apply IH.
Qed.

(** For a native machine the first code that mentions a power state
    decides: the machine runs when that code mentions [running] and is
    stopped otherwise, whatever the entries after it. *)
Theorem first_power_state_code_decides w fmt rid token log data pre status post c :
  respond w log (instance_view_url fmt rid Compute) ("Bearer " +:+ token)
  = Reply 200 (Some data) ->
  (v <~ py_get data "statuses" (JArr []) ;; py_iter v)
  = Ok (pre ++ status :: post) ->
  forallb quiet_status pre = true ->
  py_get status "code" (JStr "") = Ok (JStr c) ->
  contains "powerstate" (lower c) = true ->
  get_vm_power_state w fmt rid token Compute log
  = (Ok (if contains "running" (lower c) then "running" else "stopped"),
     log ++ [instance_view_url fmt rid Compute]).
Proof.
  intros Hreply Hstatuses Hpre Hcode Hpower.
  unfold get_vm_power_state. run. rewrite Hreply. cbn.
  destruct (py_get data "statuses" (JArr [])) as [v|]; [|discriminate].
  cbn [rbind] in *. rewrite Hstatuses. cbn [rbind].
  by rewrite (scan_statuses_first pre status post c Hpre Hcode Hpower).
Qed.

Lemma first_power_state_code_decides_witness :
  get_vm_power_state world_deallocated plain (JStr vm1_id) "t" Compute []
  = (Ok (if contains "running" (lower "PowerState/deallocated")
         then "running" else "stopped"),
     [] ++ [instance_view_url plain (JStr vm1_id) Compute]).
Proof.
  apply (first_power_state_code_decides world_deallocated plain (JStr vm1_id)
           "t" [] view_deallocated
           [JObj [("code", JStr "ProvisioningState/succeeded")]]
           (JObj [("code", JStr "PowerState/deallocated")]) []
           "PowerState/deallocated"); reflexivity.
Defined.

(* ===================================================================== *)
(** ** Further properties: monitoring status *)
(* ===================================================================== *)

(** The monitoring status is one of three words, whatever the answers. *)
Theorem insights_status_range w fmt rid token vm_type log :
  exists status log',
    get_vm_insights_status w fmt rid token vm_type log = (Ok status, log') /\
    (status = "Enabled" \/ status = "Not enabled" \/ status = "Unknown").
Proof.
  unfold get_vm_insights_status. run.
  destruct (respond w log _ _) as [st b|]; cbn; [|eauto 7].
  match goal with |- context [if ?c then ?a else Ok false] =>
    destruct (if c then a else Ok false) as [[|]|e] end; cbn; eauto 7.
  destruct (respond w _ _ _) as [st' b'|]; cbn; [|eauto 7].
  match goal with |- context [if ?c then ?a else Ok false] =>
    destruct (if c then a else Ok false) as [[|]|e] end; cbn; eauto 7.
Qed.

Lemma scan_extensions_first pre ext post :
  Forall (fun e => provisioned_agent e = Ok false) pre ->
  provisioned_agent ext = Ok true ->
  scan_extensions (pre ++ ext :: post) = Ok true.
Proof.
  intros Hpre Hext. induction Hpre as [|e pre He _ IH].
  - cbn. unfold provisioned_agent in Hext.
    destruct (py_get ext "name" (JStr "")) as [n|]; [|discriminate].
    cbn [rbind] in *. destruct (py_lower n) as [nm|]; [|discriminate].
    cbn [rbind] in *.
    destruct (contains "azuremonitor" nm && contains "agent" nm); [|discriminate].
    destruct (py_get ext "properties" (JObj [])) as [props|]; [|discriminate].
    cbn [rbind] in *.
    destruct (py_get props "provisioningState" JNull) as [st|]; [|discriminate].
    cbn [rbind] in *. injection Hext as ->. reflexivity.
  - cbn. unfold provisioned_agent in He.
    destruct (py_get e "name" (JStr "")) as [n|]; [|discriminate].
    cbn [rbind] in *. destruct (py_lower n) as [nm|]; [|discriminate].
    cbn [rbind] in *.
    destruct (contains "azuremonitor" nm && contains "agent" nm); [|exact IH].
    destruct (py_get e "properties" (JObj [])) as [props|]; [|discriminate].
    cbn [rbind] in *.
    destruct (py_get props "provisioningState" JNull) as [st|]; [|discriminate].
    cbn [rbind] in *. injection He as ->. exact IH.
Qed.

(** A provisioned Azure Monitor agent among the extensions settles the
    status as ["Enabled"] after a single request: the data-collection
    rules are not asked for. *)
Theorem agent_extension_enables w fmt rid token vm_type log data pre ext post :
  respond w log (extensions_url fmt rid vm_type) ("Bearer " +:+ token)
  = Reply 200 (Some data) ->
  extensions_of data = Ok (pre ++ ext :: post) ->
  Forall (fun e => provisioned_agent e = Ok false) pre ->
  provisioned_agent ext = Ok true ->
  get_vm_insights_status w fmt rid token vm_type log
  = (Ok "Enabled", log ++ [extensions_url fmt rid vm_type]).
Proof.
  intros Hreply Hexts Hpre Hext. unfold get_vm_insights_status. run.
  rewrite Hreply. cbn. unfold extensions_of in Hexts.
  destruct (py_get data "value" (JArr [])) as [v|]; [|discriminate].
  cbn [rbind] in *. rewrite Hexts. cbn [rbind].
  by rewrite (scan_extensions_first pre ext post Hpre Hext).
Qed.

Lemma agent_extension_enables_witness :
  get_vm_insights_status world_fleet plain (JStr vm1_id) "t" Compute []
  = (Ok "Enabled", [] ++ [extensions_url plain (JStr vm1_id) Compute]).
Proof.
  apply (agent_extension_enables world_fleet plain (JStr vm1_id) "t" Compute []
           (JObj [("value", JArr [agent_extension])]) [] agent_extension []).
  - reflexivity.
  - reflexivity.
  - constructor.
  - reflexivity.
Defined.

(** When the extensions lookup ends in an exception the status is
    ["Unknown"] and the data-collection rules are never asked for,
    whatever they would have answered. *)
Theorem extensions_exception_hides_rules w fmt rid token vm_type log :
  extensions_lookup_raises
    (respond w log (extensions_url fmt rid vm_type) ("Bearer " +:+ token)) ->
  get_vm_insights_status w fmt rid token vm_type log
  = (Ok "Unknown", log ++ [extensions_url fmt rid vm_type]).
Proof.
  intros Hraise. unfold get_vm_insights_status. run.
  destruct (respond w log _ _) as [st b|]; cbn in *; [|reflexivity].
  destruct Hraise as [-> ->]. reflexivity.
Qed.

Lemma extensions_exception_hides_rules_witness :
  get_vm_insights_status world_extensions_unreadable plain (JStr vm1_id) "t"
    Compute []
  = (Ok "Unknown", [] ++ [extensions_url plain (JStr vm1_id) Compute]) /\
  respond world_extensions_unreadable
    [extensions_url plain (JStr vm1_id) Compute]
    (dcr_url plain (JStr vm1_id)) "Bearer t"
  = Reply 200 (Some dcr_body).
Proof.
  split; [|reflexivity].
  apply (extensions_exception_hides_rules world_extensions_unreadable plain
           (JStr vm1_id) "t" Compute []).
  cbn. split; reflexivity.
Defined.

(** When the extensions lookup is answered with a status other than
    200, the data-collection rules decide: a non-empty list of
    associations reads ["Enabled"], and a second status other than 200
    reads ["Not enabled"], not ["Unknown"]. *)
Theorem rules_decide_after_refusal w fmt rid token vm_type log :
  not_200 (respond w log (extensions_url fmt rid vm_type) ("Bearer " +:+ token)) ->
  let log1 := log ++ [extensions_url fmt rid vm_type] in
  (forall data v,
     respond w log1 (dcr_url fmt rid) ("Bearer " +:+ token)
     = Reply 200 (Some data) ->
     py_get data "value" (JArr []) = Ok v ->
     get_vm_insights_status w fmt rid token vm_type log
     = (Ok (if truthy v then "Enabled" else "Not enabled"),
        log1 ++ [dcr_url fmt rid])) /\
  (not_200 (respond w log1 (dcr_url fmt rid) ("Bearer " +:+ token)) ->
   get_vm_insights_status w fmt rid token vm_type log
   = (Ok "Not enabled", log1 ++ [dcr_url fmt rid])).
Proof.
  intros Hext log1. unfold get_vm_insights_status. run.
  destruct (respond w log _ _) as [st b|]; cbn in Hext; [|done].
  apply Z.eqb_neq in Hext. cbn [status_code]. rewrite Hext. cbv beta iota.
  fold log1. split.
  - intros data v Hdcr Hv. rewrite Hdcr. cbn. rewrite Hv. cbn.
    by destruct (truthy v).
  - intros Hdcr. destruct (respond w log1 _ _) as [st' b'|]; cbn in Hdcr; [|done].
    apply Z.eqb_neq in Hdcr. cbn. rewrite Hdcr. reflexivity.
Qed.

Lemma rules_decide_after_refusal_witness :
  let log1 := [] ++ [extensions_url plain (JStr vm1_id) Compute] in
  get_vm_insights_status world_dcr_only plain (JStr vm1_id) "t" Compute []
  = (Ok (if truthy (JArr [JObj [("name", JStr "dcr-assoc")]])
         then "Enabled" else "Not enabled"),
     log1 ++ [dcr_url plain (JStr vm1_id)]) /\
  get_vm_insights_status world_details_down plain (JStr vm1_id) "t" Compute []
  = (Ok "Not enabled", log1 ++ [dcr_url plain (JStr vm1_id)]).
Proof.
  split.
  - apply (proj1 (rules_decide_after_refusal world_dcr_only plain (JStr vm1_id)
                    "t" Compute [] ltac:(by vm_compute)) dcr_body); reflexivity.
  - apply (proj2 (rules_decide_after_refusal world_details_down plain (JStr vm1_id)
                    "t" Compute [] ltac:(by vm_compute))).
    by vm_compute.
Defined.

(* ===================================================================== *)
(** ** Further properties: grouping of the machines *)
(* ===================================================================== *)

Lemma process_vm_inv_full w fmt vm vm_type token v log v' log' :
  process_vm w fmt vm vm_type token v log = (Ok v', log') ->
  exists rg n r,
    descriptor_key vm = Ok rg /\
    py_get vm "name" (JStr "Unnamed") = Ok n /\
    name r = n /\ type r = vm_type /\
    total_machines v' = total_machines v + 1 /\
    resource_groups v'
    = alter (fun ms => ms ++ [r]) rg
        (match resource_groups v !! rg with
         | None => <[rg := []]> (resource_groups v)
         | Some _ => resource_groups v
         end).
Proof.
  intros Hrun. unfold descriptor_key.
  destruct (py_get vm "id" (JStr "")) as [rid|e] eqn:Hid.
  2:{ unfold process_vm, bind, lift in Hrun.
      destruct (py_get vm "name" _); [|discriminate].
      rewrite Hid in Hrun. discriminate. }
  destruct (vm_group_key rid) as [rg|e] eqn:Hrg.
  2:{ unfold process_vm, bind, lift in Hrun.
      destruct (py_get vm "name" _); [|discriminate].
      rewrite Hid, Hrg in Hrun. discriminate. }
  destruct (process_vm_run w fmt vm vm_type token v log rid rg Hid Hrg)
    as (n & power & status & log1 & log2 & Hn & _ & _ & Hv).
  cbv zeta in Hv. rewrite Hv in Hrun. injection Hrun as <- <-.
  eexists rg, n, _. split; [cbn [rbind]; exact Hrg|]. split; [exact Hn|].
  cbn. repeat split; reflexivity.
Qed.

Lemma machines_of_append (groups : gmap string (list machine)) rg rg' r :
  machines_of
    (alter (fun ms => ms ++ [r]) rg
       (match groups !! rg with
        | None => <[rg := []]> groups
        | Some _ => groups
        end)) rg'
  = machines_of groups rg' ++ (if String.eqb rg rg' then [r] else []).
Proof.
  destruct (String.eqb_spec rg rg') as [<-|Hne].
  - unfold machines_of at 1. by rewrite group_append_lookup.
  - unfold machines_of. rewrite group_append_lookup_ne by done.
    by rewrite app_nil_r.
Qed.

(** Grouping is a stable partition of the listing: when the loop over
    the machines returns, the total has grown by the number of
    descriptors, and each group has received, after what it held, the
    descriptors with its key, in the order of the listing and with the
    kind of the loop. *)
Theorem grouping_is_stable_partition w fmt vms vm_type token v log v' log' :
  process_vms w fmt vms vm_type token v log = (Ok v', log') ->
  total_machines v' = total_machines v + Z.of_nat (length vms) /\
  forall rg,
    labels (machines_of (resource_groups v') rg)
    = labels (machines_of (resource_groups v) rg)
      ++ map (fun n => (n, vm_type)) (names_in_group rg vms).
Proof.
  revert v log. induction vms as [|vm vms IH]; intros v log Hrun.
  - cbn in Hrun. unfold ret in Hrun. injection Hrun as <- <-.
    split; [cbn; lia|]. intros rg. cbn. by rewrite app_nil_r.
  - cbn [process_vms] in Hrun. unfold bind in Hrun.
    destruct (process_vm w fmt vm vm_type token v log) as [[v1|e] log1] eqn:E;
      [|discriminate].
    destruct (process_vm_inv_full _ _ _ _ _ _ _ _ _ E)
      as (rg0 & n & r & Hkey & Hname & Hn & Ht & Htot & Hgroups).
    destruct (IH v1 log1 Hrun) as [Htot' Hall].
    split; [cbn [length]; lia|].
    intros rg. rewrite (Hall rg), Hgroups, machines_of_append.
    unfold labels, names_in_group. cbn [omap list_omap]. rewrite Hkey, Hname.
    rewrite map_app, <- app_assoc. f_equal.
    destruct (String.eqb rg0 rg); cbn; [|reflexivity].
    by rewrite Hn, Ht.
Qed.

Lemma grouping_is_stable_partition_witness :
  exists v' log',
    process_vms world_fleet plain [vm1; vm2] Compute "t" initial_vm_metrics []
    = (Ok v', log') /\
    total_machines v' = 0 + Z.of_nat 2 /\
    forall rg,
      labels (machines_of (resource_groups v') rg)
      = labels (machines_of ∅ rg)
        ++ map (fun n => (n, Compute)) (names_in_group rg [vm1; vm2]).
Proof.
  eexists _, _. split; [vm_compute; reflexivity|].
  eapply (grouping_is_stable_partition world_fleet plain [vm1; vm2] Compute "t"
            initial_vm_metrics []).
  vm_compute. reflexivity.
Defined.

Lemma lower_ascii_idempotent c : lower_ascii (lower_ascii c) = lower_ascii c.
Proof. destruct c as [[] [] [] [] [] [] [] []]; reflexivity. Qed.

Lemma lower_idempotent s : lower (lower s) = lower s.
Proof.
  induction s as [|c s IH]; [reflexivity|].
  cbn. by rewrite lower_ascii_idempotent, IH.
Qed.

Lemma vm_group_key_lower rid rg : vm_group_key rid = Ok rg -> lower rg = rg.
Proof.
  unfold vm_group_key. destruct (truthy rid).
  - destruct (split_segment4 rid) as [g|]; cbn; [|discriminate].
    intros [= <-]. apply lower_idempotent.
  - by intros [= <-].
Qed.

Lemma process_vm_well_keyed w fmt vm vm_type token v log v' log' :
  process_vm w fmt vm vm_type token v log = (Ok v', log') ->
  groups_well_keyed (resource_groups v) ->
  groups_well_keyed (resource_groups v').
Proof.
  intros Hrun Hv.
  destruct (process_vm_inv_full _ _ _ _ _ _ _ _ _ Hrun)
    as (rg0 & n & r & Hkey & _ & _ & _ & _ & Hgroups).
  rewrite Hgroups. intros rg ms Hlook.
  destruct (decide (rg0 = rg)) as [<-|Hne].
  - rewrite group_append_lookup in Hlook. injection Hlook as <-. split.
    + by destruct (machines_of (resource_groups v) rg0).
    + unfold descriptor_key in Hkey.
      destruct (py_get vm "id" (JStr "")) as [rid|]; [|discriminate].
      by apply (vm_group_key_lower rid).
  - rewrite group_append_lookup_ne in Hlook by done. by apply Hv.
Qed.

Lemma process_vms_well_keyed w fmt vms vm_type token v log v' log' :
  process_vms w fmt vms vm_type token v log = (Ok v', log') ->
  groups_well_keyed (resource_groups v) ->
  groups_well_keyed (resource_groups v').
Proof.
  revert v log. induction vms as [|vm vms IH]; intros v log Hrun Hv.
  - cbn in Hrun. unfold ret in Hrun. by injection Hrun as <- <-.
  - cbn in Hrun. unfold bind in Hrun.
    destruct (process_vm w fmt vm vm_type token v log) as [[v1|e] log1] eqn:E;
      [|discriminate].
    eapply IH; [exact Hrun|]. eapply process_vm_well_keyed; eauto.
Qed.

(** In the aggregate [get_vm_metrics] returns, no resource group is
    empty and every group key is in lower case, so that two spellings
    of one resource group never give two groups. *)
Theorem groups_are_well_keyed w fmt token log v log' :
  get_vm_metrics w fmt token log = (Ok v, log') ->
  forall rg ms,
    resource_groups v !! rg = Some ms -> ms <> [] /\ lower rg = rg.
Proof.
  unfold get_vm_metrics, bind. intros Hrun.
  destruct (get_vms w subscription_id token log) as [[cv|e] l1]; [|discriminate].
  destruct (lift (py_iter cv) l1) as [[vms|e] l2]; [|discriminate].
  destruct (process_vms w fmt vms Compute token initial_vm_metrics l2)
    as [[v1|e] l3] eqn:E1; [|discriminate].
  destruct (get_arc_machines w subscription_id token l3) as [[am|e] l4];
    [|discriminate].
  destruct (lift (py_iter am) l4) as [[machines|e] l5]; [|discriminate].
  eapply process_vms_well_keyed; [exact Hrun|].
  eapply process_vms_well_keyed; [exact E1|].
  intros rg ms Hlook. cbn in Hlook. by rewrite lookup_empty in Hlook.
Qed.

Lemma groups_are_well_keyed_witness :
  exists v log',
    get_vm_metrics world_fleet plain "t" [] = (Ok v, log') /\
    (labels <$> resource_groups v !! "rg-a")
    = Some [(JStr "vm1", Compute); (JStr "arc1", Arc)] /\
    forall rg ms,
      resource_groups v !! rg = Some ms -> ms <> [] /\ lower rg = rg.
Proof.
  eexists _, _. split; [vm_compute; reflexivity|].
  split; [vm_compute; reflexivity|].
  eapply (groups_are_well_keyed world_fleet plain "t" []).
  vm_compute. reflexivity.
Defined.

(* ===================================================================== *)
(** ** Further properties: the segment of the resource group *)
(* ===================================================================== *)

Lemma split_on_app sep s t :
  free_of sep s = true ->
  split_on sep (s +:+ String sep t) = s :: split_on sep t.
Proof.
  induction s as [|c s IH]; intros Hfree.
  - simpl. by rewrite Ascii.eqb_refl.
  - simpl in Hfree. apply andb_prop in Hfree as [Hc Hs].
    apply negb_true_iff in Hc. simpl. rewrite Hc, (IH Hs). reflexivity.
Qed.

Lemma split_on_arm_id sub g rest :
  free_of "/" sub = true ->
  free_of "/" g = true ->
  split_on "/" (arm_id sub g rest)
  = "" :: "subscriptions" :: sub :: "resourceGroups" :: g :: split_on "/" rest.
Proof.
  intros Hsub Hg. unfold arm_id.
  change (split_on "/" ("/subscriptions/" +:+ sub +:+ "/resourceGroups/" +:+ g
                        +:+ "/" +:+ rest))
    with ("" :: "subscriptions"
             :: split_on "/" (sub +:+ String "/" ("resourceGroups/" +:+ g
                                                  +:+ String "/" rest))).
  rewrite (split_on_app "/" sub _ Hsub).
  change (split_on "/" ("resourceGroups/" +:+ g +:+ String "/" rest))
    with ("resourceGroups" :: split_on "/" (g +:+ String "/" rest)).
  by rewrite (split_on_app "/" g _ Hg).
Qed.

(** For an identifier of the form
    [/subscriptions/<sub>/resourceGroups/<g>/...], the fifth segment is
    the resource group: the machine key is [g] in lower case, and the
    group of a storage account or network resource is [g] as written. *)
Theorem resource_group_of_arm_id sub g rest :
  free_of "/" sub = true ->
  free_of "/" g = true ->
  vm_group_key (JStr (arm_id sub g rest)) = Ok (lower g) /\
  forall fs,
    assoc_find "id" fs = Some (JStr (arm_id sub g rest)) ->
    network_group (JObj fs) = Ok g /\ storage_group (JObj fs) = Ok g.
Proof.
  intros Hsub Hg.
  pose proof (split_on_arm_id sub g rest Hsub Hg) as Hsplit.
  assert (H4 : split_on "/" (arm_id sub g rest) !! 4%nat = Some g)
    by (by rewrite Hsplit).
  split.
  - unfold vm_group_key, split_segment4.
    assert (truthy (JStr (arm_id sub g rest)) = true) as -> by reflexivity.
    cbv beta iota. by rewrite H4.
  - intros fs Hid.
    unfold storage_group, network_group, py_in, py_get, split_segment4.
    rewrite Hid. unfold rbind, default. cbv beta iota.
    rewrite bool_decide_true by eauto. cbv beta iota delta [id].
    by rewrite H4.
Qed.

Lemma resource_group_of_arm_id_witness :
  vm_group_key
    (JStr (arm_id "s1" "RG-A" "providers/Microsoft.Compute/virtualMachines/vm1"))
  = Ok (lower "RG-A") /\
  forall fs,
    assoc_find "id" fs
    = Some (JStr (arm_id "s1" "RG-A"
                    "providers/Microsoft.Compute/virtualMachines/vm1")) ->
    network_group (JObj fs) = Ok "RG-A" /\ storage_group (JObj fs) = Ok "RG-A".
Proof.
  apply (resource_group_of_arm_id "s1" "RG-A"
           "providers/Microsoft.Compute/virtualMachines/vm1"); reflexivity.
Defined.

(* ===================================================================== *)
(** ** Further properties: the records of the network resources *)
(* ===================================================================== *)

(** A network record is built only from a descriptor whose identifier
    is a string with a fifth segment, which becomes the resource group
    as written, and it costs exactly one request, the health lookup of
    that identifier: the guard of [get_resource_health] for a missing
    identifier is never reached from here. *)
Theorem network_record_costs_one_lookup w fmt item token log i log' :
  resource_info_of w fmt item token log = (Ok i, log') ->
  exists s,
    py_get item "id" JNull = Ok (JStr s) /\
    split_on "/" s !! 4%nat = Some (ri_resource_group i) /\
    log' = log ++ [health_url fmt (JStr s)].
Proof.
  unfold resource_info_of, bind, lift, ret. intros Hrun.
  destruct (py_get item "name" JNull) as [n|]; [|discriminate].
  destruct (network_group item) as [rg|] eqn:Hrg; [|discriminate].
  destruct (network_group_id item rg Hrg) as (s & Hid1 & Hid2 & Ht).
  exists s. split; [exact Hid2|].
  destruct (rbind _ _) as [state|]; [|discriminate].
  rewrite Hid2 in Hrun.
  destruct (get_resource_health_total w fmt (JStr s) token log) as (h & l1 & Hh).
  assert (Hlog : l1 = log ++ [health_url fmt (JStr s)]).
  { revert Hh. unfold get_resource_health. rewrite Ht. cbn [negb].
    unfold try_except, bind, requests_get.
    destruct (respond w log _ _) as [st b|]; cbv beta iota.
    - destruct (response_ok _); [|by intros [= _ <-]].
      unfold lift. destruct (response_json _); cbv beta iota.
      + destruct (rbind _ _); by intros [= _ <-].
      + by intros [= _ <-].
    - by intros [= _ <-]. }
  rewrite Hh in Hrun. injection Hrun as <- <-. split; [|exact Hlog].
  cbn [ri_resource_group]. unfold network_group in Hrg. rewrite Hid1 in Hrg.
  cbn [rbind] in Hrg. unfold split_segment4 in Hrg.
  by destruct (split_on "/" s !! 4%nat); [injection Hrg as ->|].
Qed.

Lemma network_record_costs_one_lookup_witness :
  exists i log',
    resource_info_of world_details_down plain nic1 "t" [] = (Ok i, log') /\
    exists s,
      py_get nic1 "id" JNull = Ok (JStr s) /\
      split_on "/" s !! 4%nat = Some (ri_resource_group i) /\
      log' = [] ++ [health_url plain (JStr s)].
Proof.
  eexists _, _. split; [vm_compute; reflexivity|].
  eapply (network_record_costs_one_lookup world_details_down plain nic1 "t" []).
  vm_compute. reflexivity.
Defined.

Lemma collect_kind_entry w fmt sub token nm kind log e :
  nm !! kind.1 = Some e ->
  items e = [] ->
  0 <= count e ->
  exists nm' log',
    collect_kind w fmt sub token nm kind log = (Ok nm', log') /\
    dom nm' = dom nm /\
    (forall k, k <> kind.1 -> nm' !! k = nm !! k) /\
    exists e', nm' !! kind.1 = Some e' /\
               Z.of_nat (length (items e')) <= count e'.
Proof.
  intros Hlook Hitems Hcount.
  assert (Hsame : exists e', nm !! kind.1 = Some e' /\
                             Z.of_nat (length (items e')) <= count e').
  { exists e. split; [exact Hlook|]. rewrite Hitems. cbn. lia. }
  unfold collect_kind. run.
  destruct (respond w log _ _) as [st b|].
  2:{ exists nm, (log ++ [network_url sub kind.2]). by repeat split. }
  cbv beta iota.
  destruct (response_ok _).
  2:{ exists nm, (log ++ [network_url sub kind.2]). by repeat split. }
  destruct (response_json _) as [data|ex].
  2:{ exists nm, (log ++ [network_url sub kind.2]). by repeat split. }
  destruct (py_get data "value" (JArr [])) as [value|ex].
  2:{ exists nm, (log ++ [network_url sub kind.2]). by repeat split. }
  destruct (py_len value) as [n|ex] eqn:Hlen.
  2:{ exists nm, (log ++ [network_url sub kind.2]). by repeat split. }
  destruct (py_len_iter value n Hlen) as (entries & Hiter & ->).
  rewrite Hiter.
  destruct (append_items_entry w fmt kind.1 token entries
              (alter (set_count (Z.of_nat (length entries))) kind.1 nm)
              (log ++ [network_url sub kind.2]))
    as (nm' & log' & Hrun & Hdom & Hk & He).
  exists nm', log'. rewrite Hrun. split; [reflexivity|]. split; [|split].
  - by rewrite Hdom, dom_alter_L.
  - intros k Hne. rewrite (Hk k Hne). by apply lookup_alter_ne.
  - destruct (He (set_count (Z.of_nat (length entries)) e))
      as (e' & more & Hl & Hc & Hi & Hle).
    { by rewrite lookup_alter_eq, Hlook. }
    exists e'. split; [exact Hl|]. rewrite Hi, Hc. cbn [set_count count items].
    rewrite Hitems. cbn [app]. lia.
Qed.

Lemma collect_kinds_entries w fmt sub token kinds nm log :
  NoDup (kinds.*1) ->
  (forall kind, kind ∈ kinds -> nm !! kind.1 = Some empty_entry) ->
  items_within_count nm ->
  exists nm' log',
    collect_kinds w fmt sub token kinds nm log = (Ok nm', log') /\
    dom nm' = dom nm /\
    items_within_count nm'.
Proof.
  revert nm log. induction kinds as [|kind rest IH]; intros nm log Hnd Hinit Hinv.
  - exists nm, log. by repeat split.
  - cbn [fmap list_fmap] in Hnd. apply NoDup_cons in Hnd as [Hnotin Hnd].
    cbn [collect_kinds]. unfold bind.
    destruct (collect_kind_entry w fmt sub token nm kind log empty_entry)
      as (nm1 & log1 & Hrun1 & Hdom1 & Hk1 & e1 & He1 & Hle1).
    { apply Hinit. left. }
    { reflexivity. }
    { cbn. lia. }
    rewrite Hrun1.
    destruct (IH nm1 log1 Hnd) as (nm' & log' & Hrun & Hdom & Hinv').
    + intros kind' Hin. rewrite Hk1.
      * apply Hinit. by right.
      * intros Heq. apply Hnotin. rewrite <- Heq.
        apply list_elem_of_fmap. by exists kind'.
    + intros k e Hlook. destruct (decide (k = kind.1)) as [->|Hne].
      * rewrite He1 in Hlook. by injection Hlook as <-.
      * rewrite Hk1 in Hlook by done. by apply (Hinv k).
    + exists nm', log'. split; [exact Hrun|]. split; [by rewrite Hdom|exact Hinv'].
Qed.

Lemma resources_names_nodup : NoDup (resources.*1).
Proof. apply (bool_decide_unpack _). by vm_compute. Qed.

(** [get_network_resources] always returns a mapping with an entry for
    each of the eleven kinds and no other, in which no kind lists more
    items than it counts. *)
Theorem network_entries_within_count w fmt token log :
  exists nm log',
    get_network_resources w fmt subscription_id token log = (Ok nm, log') /\
    (forall k, is_Some (nm !! k) <-> k ∈ resources.*1) /\
    forall k e, nm !! k = Some e ->
      0 <= Z.of_nat (length (items e)) <= count e.
Proof.
  unfold get_network_resources.
  destruct (collect_kinds_entries w fmt subscription_id token resources
              initial_network_metrics log resources_names_nodup)
    as (nm & log' & Hrun & Hdom & Hinv).
  - intros kind Hin. by apply resources_initial.
  - intros k e Hlook. unfold initial_network_metrics in Hlook.
    apply elem_of_list_to_map_2 in Hlook.
    repeat (apply elem_of_cons in Hlook as [[= -> ->]|Hlook]; [cbn; lia|]).
    by apply elem_of_nil in Hlook.
  - exists nm, log'. split; [exact Hrun|]. split.
    + intros k. rewrite <- elem_of_dom, Hdom.
      unfold initial_network_metrics. rewrite dom_list_to_map_L. cbn.
      rewrite !elem_of_union, !elem_of_singleton, !elem_of_cons, elem_of_nil.
      rewrite elem_of_empty. tauto.
    + intros k e Hlook. split; [lia|]. by apply (Hinv k).
Qed.

(* ===================================================================== *)
(** ** Further properties: the health figures of the network table *)
(* ===================================================================== *)

Lemma count_health_text state acc its :
  forallb health_is_text its = true ->
  count_health state acc its = Ok (acc + health_total state its).
Proof.
  unfold health_total. revert acc.
  induction its as [|i its IH]; intros acc Htext.
  - cbn. f_equal. lia.
  - cbn in Htext. apply andb_prop in Htext as [Hi Hits].
    cbn [count_health List.filter]. unfold health_is_text in Hi.
    unfold health_is at 1.
    destruct (health_state i) as [| | |s| |]; try discriminate.
    cbn [py_lower rbind]. rewrite IH by done.
    destruct (String.eqb (lower s) state); cbn [length]; f_equal; lia.
Qed.

Lemma exclusive_filters {A} (p q r : A -> bool) (l : list A) :
  (forall x, p x = true -> q x = false /\ r x = false) ->
  (forall x, q x = true -> r x = false) ->
  (length (List.filter p l) + length (List.filter q l)
   + length (List.filter r l) <= length l)%nat.
Proof.
  intros Hp Hq. induction l as [|x l IH]; [cbn; lia|].
  cbn [List.filter length].
  destruct (p x) eqn:Ep.
  - destruct (Hp x Ep) as [-> ->]. cbn [length]. lia.
  - destruct (q x) eqn:Eq.
    + rewrite (Hq x Eq). cbn [length]. lia.
    + destruct (r x); cbn [length]; lia.
Qed.

Lemma exclusive_totals (its : list resource_info) :
  health_total "available" its + health_total "degraded" its
  + health_total "unavailable" its <= Z.of_nat (length its).
Proof.
  unfold health_total.
  pose proof (exclusive_filters (health_is "available") (health_is "degraded")
                (health_is "unavailable") its) as H.
  assert (Hle : (length (List.filter (health_is "available") its)
                 + length (List.filter (health_is "degraded") its)
                 + length (List.filter (health_is "unavailable") its)
                 <= length its)%nat); [|lia].
  apply H; unfold health_is; intros x; destruct (health_state x) as [| | |s| |];
    try discriminate.
  - intros Hs. apply String.eqb_eq in Hs. by rewrite Hs.
  - intros Hs. apply String.eqb_eq in Hs. by rewrite Hs.
Qed.

(** When every health state of a kind is text, the row of the network
    table shows the stored count and, for each of [available],
    [degraded] and [unavailable], the number of records that read so in
    any letter case; the three never add up to more than the records,
    and a record that reads ["Unknown"] is in none of them. *)
Theorem network_table_row data :
  forallb health_is_text (items data) = true ->
  network_table_counts data
  = Ok (count data,
        health_total "available" (items data),
        health_total "degraded" (items data),
        health_total "unavailable" (items data)) /\
  health_total "available" (items data) + health_total "degraded" (items data)
  + health_total "unavailable" (items data) <= Z.of_nat (length (items data)) /\
  forall i, health_state i = JStr "Unknown" ->
    health_is "available" i = false /\ health_is "degraded" i = false /\
    health_is "unavailable" i = false.
Proof.
  intros Htext. split; [|split].
  - unfold network_table_counts.
    rewrite !count_health_text by done. cbn [rbind]. reflexivity.
  - apply exclusive_totals.
  - intros i Hi. unfold health_is. rewrite Hi. by repeat split.
Qed.

Lemma network_table_row_witness :
  let data :=
    {| count := 3;
       items := [ {| ri_name := JStr "a"; ri_resource_group := "rg";
                     provisioning_state := JStr "Succeeded";
                     health_state := JStr "AVAILABLE" |};
                  {| ri_name := JStr "b"; ri_resource_group := "rg";
                     provisioning_state := JStr "Succeeded";
                     health_state := JStr "Unknown" |} ] |} in
  network_table_counts data
  = Ok (count data,
        health_total "available" (items data),
        health_total "degraded" (items data),
        health_total "unavailable" (items data)) /\
  health_total "available" (items data) + health_total "degraded" (items data)
  + health_total "unavailable" (items data) <= Z.of_nat (length (items data)) /\
  forall i, health_state i = JStr "Unknown" ->
    health_is "available" i = false /\ health_is "degraded" i = false /\
    health_is "unavailable" i = false.
Proof.
  intros data. apply (network_table_row data). reflexivity.
Defined.

Lemma count_health_not_text state acc its :
  forallb health_is_text its = false ->
  count_health state acc its = Raise AttributeError.
Proof.
  revert acc. induction its as [|i its IH]; intros acc Htext; [discriminate|].
  cbn in Htext. cbn [count_health]. unfold health_is_text in Htext at 1.
  destruct (health_state i) as [| | |s| |]; try reflexivity.
  cbn [py_lower rbind]. apply IH. exact Htext.
Qed.

(** [get_resource_health] hands the availability state on as it comes,
    and the network table calls [lower] on it: one record whose state
    is not text makes the row of its kind raise. *)
Theorem network_table_needs_text data :
  forallb health_is_text (items data) = false ->
  network_table_counts data = Raise AttributeError.
Proof.
  intros Htext. unfold network_table_counts.
  by rewrite (count_health_not_text "available" 0 (items data) Htext).
Qed.

Lemma network_table_needs_text_witness :
  network_table_counts
    {| count := 1;
       items := [ {| ri_name := JStr "vnet1"; ri_resource_group := "rg-n";
                     provisioning_state := JStr "Succeeded";
                     health_state := JNull |} ] |}
  = Raise AttributeError.
Proof. apply network_table_needs_text. reflexivity. Defined.

(** Such a record comes out of the collection when the health lookup
    answers with a null availability state. *)
Example null_health_reaches_the_table :
  match (get_network_resources world_health_null plain subscription_id "t" []).1 with
  | Ok nm =>
      (items <$> nm !! "virtual_networks")
      = Some [ {| ri_name := JStr "vnet1"; ri_resource_group := "rg-n";
                  provisioning_state := JStr "Succeeded";
                  health_state := JNull |} ]
  | Raise _ => False
  end.
Proof. vm_compute. reflexivity. Qed.

(* ===================================================================== *)
(** ** Further properties: the rendering of byte counts *)
(* ===================================================================== *)






(* ===================================================================== *)
(** ** Further properties: the samples of a storage account *)
(* ===================================================================== *)

Lemma keys_in_catalog_insert (m : gmap string number) k v :
  k ∈ metric_columns -> keys_in_catalog m -> keys_in_catalog (<[k := v]> m).
Proof.
  intros Hk Hm k' Hsome. destruct (decide (k = k')) as [<-|Hne]; [exact Hk|].
  rewrite lookup_insert_ne in Hsome by done. by apply Hm.
Qed.

Lemma capacity_step_catalog ar m m' metric :
  capacity_step ar m metric = Ok m' -> keys_in_catalog m -> keys_in_catalog m'.
Proof.
  unfold capacity_step. intros H Hm. revert H.
  destruct (metric_name metric) as [mname|]; cbn [rbind]; [|done].
  destruct (py_get metric "timeseries" _); cbn [rbind]; [|done].
  destruct (first_series_data _) as [[d|]|]; cbn [rbind]; [| |done].
  2:{ by intros [= <-]. }
  split_steps; intros [= <-]; try done.
  apply keys_in_catalog_insert; [|done]. unfold metric_columns. set_solver.
Qed.

Lemma other_step_catalog ar m m' metric :
  other_step ar m metric = Ok m' -> keys_in_catalog m -> keys_in_catalog m'.
Proof.
  unfold other_step. intros H Hm. revert H.
  destruct (metric_name metric) as [mname|]; cbn [rbind]; [|done].
  destruct (py_get metric "timeseries" _); cbn [rbind]; [|done].
  destruct (first_series_data _) as [[d|]|]; cbn [rbind]; [| |done].
  2:{ by intros [= <-]. }
  destruct (String.eqb_spec mname "transactions") as [->|_].
  { split_steps; intros [= <-].
    apply keys_in_catalog_insert; [|done]. unfold metric_columns. set_solver. }
  destruct (String.eqb_spec mname "ingress") as [->|_].
  { cbn [orb]. split_steps; intros [= <-].
    apply keys_in_catalog_insert; [|done]. unfold metric_columns. cbn. set_solver. }
  destruct (String.eqb_spec mname "egress") as [->|_].
  { cbn [orb]. split_steps; intros [= <-].
    apply keys_in_catalog_insert; [|done]. unfold metric_columns. cbn. set_solver. }
  cbn [orb].
  split_steps; intros [= <-]; try done;
    (apply keys_in_catalog_insert; [|done]); unfold metric_columns; set_solver.
Qed.

Lemma for_each_catalog (step : gmap string number -> json -> result (gmap string number))
    entries m m' :
  (forall a a' x, step a x = Ok a' -> keys_in_catalog a -> keys_in_catalog a') ->
  for_each step m entries = Ok m' -> keys_in_catalog m -> keys_in_catalog m'.
Proof.
  intros Hstep. revert m. induction entries as [|x xs IH]; intros m; cbn [for_each].
  - by intros [= <-].
  - destruct (step m x) as [m1|] eqn:E; cbn [rbind]; [|done].
    intros H Hm. apply (IH m1 H). by apply (Hstep m m1 x).
Qed.

Lemma collect_metrics_catalog
    (step : gmap string number -> json -> result (gmap string number)) r m m' :
  (forall a a' x, step a x = Ok a' -> keys_in_catalog a -> keys_in_catalog a') ->
  collect_metrics step r m = Ok m' -> keys_in_catalog m -> keys_in_catalog m'.
Proof.
  intros Hstep. unfold collect_metrics.
  destruct (response_json r); cbn [rbind]; [|done].
  destruct (py_get _ _ _); cbn [rbind]; [|done].
  destruct (py_iter _) as [entries|]; cbn [rbind]; [|done].
  by apply for_each_catalog.
Qed.

(** Whatever the two responses hold, the mapping
    [get_storage_account_metrics] returns has no key outside the seven
    metric columns of the report: every sample collected has a column
    in the export. *)
Theorem samples_have_columns w fmt sa token log m log' :
  get_storage_account_metrics w fmt sa token log = (Ok (Some m), log') ->
  forall k, is_Some (m !! k) -> k ∈ metric_columns.
Proof.
  unfold get_storage_account_metrics, bind, lift, ret. intros Hrun.
  destruct (py_get sa "id" JNull) as [rid|]; [|discriminate].
  destruct (truthy rid); cbn [negb] in Hrun; [|discriminate].
  destruct (requests_get w (url_capacity fmt rid) token log) as [[r1|] l1];
    [|discriminate].
  assert (Hempty : keys_in_catalog ∅).
  { intros k Hk. rewrite lookup_empty in Hk. by destruct Hk. }
  destruct (if response_ok r1 then _ else _) as [m1|] eqn:E1; [|discriminate].
  assert (Hm1 : keys_in_catalog m1).
  { destruct (response_ok r1).
    - by apply (collect_metrics_catalog (capacity_step (arithmetic w)) r1 ∅ m1
                  (capacity_step_catalog (arithmetic w))).
    - by injection E1 as <-. }
  destruct (requests_get w (url_metrics fmt rid) token l1) as [[r2|] l2];
    [|discriminate].
  destruct (if response_ok r2 then _ else _) as [m2|] eqn:E2; [|discriminate].
  injection Hrun as <- <-.
  destruct (response_ok r2).
  - by apply (collect_metrics_catalog (other_step (arithmetic w)) r2 m1 m2
                (other_step_catalog (arithmetic w))).
  - by injection E2 as <-.
Qed.

Lemma samples_have_columns_witness :
  exists m log',
    get_storage_account_metrics world_metrics plain acct1 "t" []
    = (Ok (Some m), log') /\
    forall k, is_Some (m !! k) -> k ∈ metric_columns.
Proof.
  assert (H : match (get_storage_account_metrics world_metrics plain acct1
                       "t" []).1 with
              | Ok (Some _) => true
              | _ => false
              end = true) by (vm_compute; reflexivity).
  destruct (get_storage_account_metrics world_metrics plain acct1 "t" [])
    as [[[m|]|e] log'] eqn:E; try discriminate H.
  exists m, log'. split; [reflexivity|].
  exact (samples_have_columns world_metrics plain acct1 "t" [] m log' E).
Defined.

Lemma step_without_series ar (m : gmap string number) metric :
  without_series metric ->
  capacity_step ar m metric = Ok m /\ other_step ar m metric = Ok m.
Proof.
  intros [[n Hn] Hs]. unfold capacity_step, other_step, series_of in *.
  rewrite Hn. cbn [rbind].
  destruct (py_get metric "timeseries" (JArr [])) as [ts|]; [|discriminate].
  cbn [rbind] in *. by rewrite Hs.
Qed.

Lemma for_each_without_series
    (step : gmap string number -> json -> result (gmap string number)) entries
    (m : gmap string number) :
  (forall a x, without_series x -> step a x = Ok a) ->
  Forall without_series entries ->
  for_each step m entries = Ok m.
Proof.
  intros Hstep Hall. induction Hall as [|x xs Hx _ IH]; [reflexivity|].
  cbn [for_each]. by rewrite (Hstep m x Hx).
Qed.

(** A metric entry whose [timeseries] is empty, or whose first series
    has no ["data"], gets no sample at all, where a series of null
    points gets 0: when no entry of the two responses has a data
    series, the result is the empty mapping. *)
Theorem no_series_no_sample w fmt sa token log rid st1 d1 e1 st2 d2 e2 :
  py_get sa "id" JNull = Ok rid ->
  truthy rid = true ->
  respond w log (url_capacity fmt rid) ("Bearer " +:+ token)
  = Reply st1 (Some d1) ->
  entries_of d1 = Ok e1 ->
  Forall without_series e1 ->
  respond w (log ++ [url_capacity fmt rid]) (url_metrics fmt rid)
    ("Bearer " +:+ token) = Reply st2 (Some d2) ->
  entries_of d2 = Ok e2 ->
  Forall without_series e2 ->
  get_storage_account_metrics w fmt sa token log
  = (Ok (Some ∅), log ++ [url_capacity fmt rid; url_metrics fmt rid]).
Proof.
  intros Hid Ht Hr1 He1 Hall1 Hr2 He2 Hall2.
  rewrite (get_storage_account_metrics_run w fmt sa token log rid st1 (Some d1)
             Hid Ht Hr1).
  assert (Hc : capacity_part (arithmetic w)
                 {| status_code := st1; body := Some d1 |} = Ok ∅).
  { unfold capacity_part. destruct (response_ok _); [|reflexivity].
    rewrite (collect_metrics_entries (capacity_step (arithmetic w))
               {| status_code := st1; body := Some d1 |} d1 e1 ∅ eq_refl He1).
    apply for_each_without_series; [|exact Hall1].
    intros a x Hx. by apply step_without_series. }
  rewrite Hc, Hr2.
  assert (Hm : metrics_part (arithmetic w)
                 {| status_code := st2; body := Some d2 |} ∅ = Ok ∅).
  { unfold metrics_part. destruct (response_ok _); [|reflexivity].
    rewrite (collect_metrics_entries (other_step (arithmetic w))
               {| status_code := st2; body := Some d2 |} d2 e2 ∅ eq_refl He2).
    apply for_each_without_series; [|exact Hall2].
    intros a x Hx. by apply step_without_series. }
  by rewrite Hm.
Qed.

Lemma no_series_no_sample_witness :
  get_storage_account_metrics world_no_series plain acct1 "t" []
  = (Ok (Some ∅),
     [] ++ [url_capacity plain (JStr acct1_id); url_metrics plain (JStr acct1_id)]).
Proof.
  apply (no_series_no_sample world_no_series plain acct1 "t" [] (JStr acct1_id)
           200 (JObj [("value", JArr [bare_entry "UsedCapacity"])])
           [bare_entry "UsedCapacity"]
           200 (JObj [("value", JArr [bare_entry "Transactions";
                                      bare_entry "Availability"])])
           [bare_entry "Transactions"; bare_entry "Availability"]);
    try reflexivity.
  - repeat constructor; by eexists.
  - repeat constructor; by eexists.
Defined.

(* ===================================================================== *)
(** ** Further properties: the loop of [main] over the storage accounts *)
(* ===================================================================== *)

(** When the loop over the storage accounts returns, it has added one
    result per account, in the order of the listing, each with the name
    and the group of its account. *)
Theorem one_result_per_account w fmt token accounts acc log results log' :
  collect_storage w fmt token accounts acc log = (Ok results, log') ->
  exists new,
    results = acc ++ new /\
    Forall2 (fun sa r =>
               py_get sa "name" (JStr "N/A") = Ok (storage_account r) /\
               storage_group sa = Ok (resource_group r))
            accounts new.
Proof.
  revert acc log. induction accounts as [|sa rest IH]; intros acc log Hrun.
  - cbn in Hrun. unfold ret in Hrun. injection Hrun as <- <-.
    exists []. by rewrite app_nil_r.
  - cbn [collect_storage] in Hrun. unfold bind, lift in Hrun.
    destruct (py_get sa "name" (JStr "N/A")) as [n|] eqn:Hn; [|discriminate].
    destruct (get_storage_account_metrics w fmt sa token log) as [[ms|] l1];
      [|discriminate].
    destruct (storage_group sa) as [rg|] eqn:Hrg; [|discriminate].
    destruct (IH _ _ Hrun) as (new & -> & Hall).
    eexists (_ :: new). split; [by rewrite <- app_assoc|].
    constructor; [|exact Hall]. by split.
Qed.

Lemma one_result_per_account_witness :
  exists results log' new,
    collect_storage world_metrics plain "t" [acct_without_id; acct1] [] []
    = (Ok results, log') /\
    map resource_group results = ["N/A"; "RG-S"] /\
    results = [] ++ new /\
    Forall2 (fun sa r =>
               py_get sa "name" (JStr "N/A") = Ok (storage_account r) /\
               storage_group sa = Ok (resource_group r))
            [acct_without_id; acct1] new.
Proof.
  destruct (collect_storage world_metrics plain "t" [acct_without_id; acct1] [] [])
    as [[results|e] log'] eqn:E; [|by vm_compute in E].
  destruct (one_result_per_account world_metrics plain "t"
              [acct_without_id; acct1] [] [] results log' E) as (new & Hnew & Hall).
  exists results, log', new. split; [reflexivity|]. split; [|by split].
  vm_compute in E. injection E as <- _. reflexivity.
Defined.

(** An account whose ["id"] is there but empty or null gets no metrics
    and no request, as one without ["id"]; but the group that [main]
    derives next raises on it, and the exception ends the loop over the
    accounts. *)
Theorem falsy_id_ends_collection w fmt fields rid token rest acc log :
  assoc_find "id" fields = Some rid ->
  truthy rid = false ->
  get_storage_account_metrics w fmt (JObj fields) token log = (Ok None, log) /\
  exists e,
    (e = IndexError \/ e = AttributeError) /\
    collect_storage w fmt token (JObj fields :: rest) acc log = (Raise e, log).
Proof.
  intros Hid Hfalsy.
  assert (Hrun : get_storage_account_metrics w fmt (JObj fields) token log
                 = (Ok None, log)).
  { unfold get_storage_account_metrics, bind, lift, ret. cbn [py_get].
    rewrite Hid. change (default JNull (Some rid)) with rid.
    cbv beta iota. by rewrite Hfalsy. }
  split; [exact Hrun|].
  assert (Hgroup : exists e, (e = IndexError \/ e = AttributeError) /\
                             storage_group (JObj fields) = Raise e).
  { unfold storage_group, py_in, py_get. rewrite Hid.
    rewrite bool_decide_true by eauto. cbn [rbind].
    change (default (JStr "") (Some rid)) with rid.
    destruct rid as [|b|q|s|l|fs]; cbn; eauto.
    destruct s; [cbn; eauto | discriminate]. }
  destruct Hgroup as (e & He & Hg). exists e. split; [exact He|].
  cbn [collect_storage]. unfold bind at 1. unfold lift at 1. cbn [py_get].
  unfold bind at 1. rewrite Hrun. unfold bind, lift. by rewrite Hg.
Qed.

Lemma falsy_id_ends_collection_witness :
  get_storage_account_metrics world_metrics plain acct_empty_id "t" []
  = (Ok None, []) /\
  exists e,
    (e = IndexError \/ e = AttributeError) /\
    collect_storage world_metrics plain "t" [acct_empty_id; acct1] [] []
    = (Raise e, []).
Proof.
  apply (falsy_id_ends_collection world_metrics plain
           [("name", JStr "blank"); ("id", JStr "")] (JStr "") "t" [acct1] [] []);
    reflexivity.
Defined.

(** Every machine of the two listings is counted once, and in each
    group the native machines come before the Arc machines, each in the
    order of its listing. *)
Theorem every_machine_is_counted w fmt token log v log' :
  get_vm_metrics w fmt token log = (Ok v, log') ->
  exists compute_vms vms l1 arc_machines arcs l2 l3,
    get_vms w subscription_id token log = (Ok compute_vms, l1) /\
    py_iter compute_vms = Ok vms /\
    get_arc_machines w subscription_id token l2 = (Ok arc_machines, l3) /\
    py_iter arc_machines = Ok arcs /\
    total_machines v = Z.of_nat (length vms) + Z.of_nat (length arcs) /\
    forall rg,
      labels (machines_of (resource_groups v) rg)
      = map (fun n => (n, Compute)) (names_in_group rg vms)
        ++ map (fun n => (n, Arc)) (names_in_group rg arcs).
Proof.
  unfold get_vm_metrics, bind, lift. intros Hrun.
  destruct (get_vms w subscription_id token log) as [[cv|e] l1]; [|discriminate].
  destruct (py_iter cv) as [vms|e] eqn:Hvms; [|discriminate].
  destruct (process_vms w fmt vms Compute token initial_vm_metrics l1)
    as [[v1|e] l2] eqn:E1; [|discriminate].
  destruct (get_arc_machines w subscription_id token l2) as [[am|e] l3] eqn:Ham;
    [|discriminate].
  destruct (py_iter am) as [arcs|e] eqn:Harcs; [|discriminate].
  destruct (grouping_is_stable_partition _ _ _ _ _ _ _ _ _ E1) as [Ht1 Hg1].
  destruct (grouping_is_stable_partition _ _ _ _ _ _ _ _ _ Hrun) as [Ht2 Hg2].
  exists cv, vms, l1, am, arcs, l2, l3.
  split; [reflexivity|]. split; [exact Hvms|]. split; [exact Ham|].
  split; [exact Harcs|]. split.
  - rewrite Ht2, Ht1. cbn. lia.
  - intros rg. rewrite (Hg2 rg), (Hg1 rg). reflexivity.
Qed.

Lemma every_machine_is_counted_witness :
  exists v log',
    get_vm_metrics world_fleet plain "t" [] = (Ok v, log') /\
    exists compute_vms vms l1 arc_machines arcs l2 l3,
      get_vms world_fleet subscription_id "t" [] = (Ok compute_vms, l1) /\
      py_iter compute_vms = Ok vms /\
      get_arc_machines world_fleet subscription_id "t" l2 = (Ok arc_machines, l3) /\
      py_iter arc_machines = Ok arcs /\
      total_machines v = Z.of_nat (length vms) + Z.of_nat (length arcs) /\
      forall rg,
        labels (machines_of (resource_groups v) rg)
        = map (fun n => (n, Compute)) (names_in_group rg vms)
          ++ map (fun n => (n, Arc)) (names_in_group rg arcs).
Proof.
  eexists _, _. split; [vm_compute; reflexivity|].
  eapply (every_machine_is_counted world_fleet plain "t" []).
  vm_compute. reflexivity.
Defined.
